(** * The multi-tenant access-control pipeline of the NestJS backend

    A shallow embedding of what a request goes through:

    - [TenantMiddleware.use] and its three extraction steps;
    - the guards [JwtAuthGuard], [TenantGuard] and [RolesGuard], with the
      decorators [Public], [Roles], [Permissions] and [Audit] that feed them;
    - [PrismaService]: the [$use] middlewares for tenant isolation and soft
      delete, and [withoutTenantScope];
    - [AuditInterceptor.intercept].

    JavaScript values are modelled by [jsval]; objects used as dictionaries
    are finite maps from property names to values. Collaborators that live
    outside the repository (the JWT decoder, the Passport strategy, the
    UUID generator, the clock, the Nest logger, the database engine) are
    parameters, so every statement holds for all of them. *)

From Stdlib Require Import ZArith String Ascii List Bool Lia.
From stdpp Require Import base option list strings pretty gmap.

Local Open Scope string_scope.
Local Set Warnings "-register-all".

(** ** JavaScript values *)

Module JS.

Inductive jsval : Type :=
| JUndefined
| JNull
| JBool (b : bool)
| JNum (n : Z)
| JStr (s : string)
| JDate (t : Z)
| JObject (o : gmap string jsval).

Abbreviation obj := (gmap string jsval).

(** [ToBoolean]: what [if (v)], [!v] and [v || w] look at. *)
Definition truthy (v : jsval) : bool :=
  match v with
  | JUndefined | JNull => false
  | JBool b => b
  | JNum n => negb (n =? 0)%Z
  | JStr s => negb (bool_decide (s = ""))
  | JDate _ | JObject _ => true
  end.

(** [a || b] *)
Definition js_or (a b : jsval) : jsval := if truthy a then a else b.

(** [o.k] on an object: a missing property reads as [undefined]. *)
Definition getProp (o : obj) (k : string) : jsval := default JUndefined (o !! k).

(** [v?.k]: optional chaining; primitives have no own data properties. *)
Definition getPropOpt (v : jsval) (k : string) : jsval :=
  match v with
  | JObject o => getProp o k
  | _ => JUndefined
  end.

(** [{ ...o, k: v }] where [o] may be [undefined]. *)
Definition spread_with (o : option obj) (k : string) (v : jsval) : obj :=
  <[k := v]> (default ∅ o).

(** [s === v] for a string [s] and an arbitrary value [v]. *)
Definition strict_eq_str (s : string) (v : jsval) : bool :=
  match v with
  | JStr s' => bool_decide (s = s')
  | _ => false
  end.

(** Exceptions: the ones the code raises by name, the runtime's
    [TypeError], and any other thrown value. *)
Inductive exn : Type :=
| TypeError (msg : string)
| UnauthorizedException (msg : string)
| ForbiddenException (msg : string)
| Raised (v : jsval).

(** The result of running a piece of code that may throw. *)
Inductive outcome (A : Type) : Type :=
| Returned (a : A)
| Thrown (e : exn).
Arguments Returned {A} a.
Arguments Thrown {A} e.

(** The exception a run ended with, if it threw. *)
Definition thrown {A : Type} (o : outcome A) : option exn :=
  match o with
  | Returned _ => None
  | Thrown e => Some e
  end.

End JS.
Export JS.

(** ** common/constants *)

Module Constants.

Definition REQUEST_ID_KEY := "requestId".
Definition TENANT_ID_KEY := "tenantId".
Definition TENANT_HEADER := "X-Tenant-ID".

Module UserRole.
Definition SUPER_ADMIN := "super_admin".
Definition ADMIN := "admin".
Definition USER := "user".
Definition GUEST := "guest".
End UserRole.

Module Permission.
Definition USERS_READ := "users:read".
Definition USERS_DELETE := "users:delete".
End Permission.

Module HTTP_MESSAGES.
Definition TENANT_REQUIRED := "Tenant context is required".
Definition TENANT_MISMATCH := "Tenant mismatch - access denied".
End HTTP_MESSAGES.

End Constants.
Export Constants.

(** ** The continuation-local store (nestjs-cls) of one request *)

Module Cls.

Abbreviation store := (gmap string jsval).

Definition cls_get (cls : store) (key : string) : jsval := getProp cls key.
Definition cls_set (cls : store) (key : string) (v : jsval) : store := <[key := v]> cls.

End Cls.
Export Cls.

(** ** PrismaService *)

Module PrismaService.

(** The properties of [params.args] the middlewares touch. *)
Record Args : Type := mkArgs {
  args_where : option obj;
  args_data : option obj;
  args_create : option obj
}.

(** [params.args] is [undefined] when the client method is called without
    an argument, as in [prisma.user.findMany()]. *)
Record Params : Type := mkParams {
  model : option string;
  action : string;
  args : option Args
}.

(** [params.args.where = w] and its siblings, for [params.args] an object.
    The middlewares check for an undefined [params.args] themselves. *)
Definition set_where (p : Params) (w : obj) : Params :=
  mkParams (model p) (action p)
    (match args p with
     | Some a => Some (mkArgs (Some w) (args_data a) (args_create a))
     | None => None
     end).

Definition set_data (p : Params) (d : obj) : Params :=
  mkParams (model p) (action p)
    (match args p with
     | Some a => Some (mkArgs (args_where a) (Some d) (args_create a))
     | None => None
     end).

Definition set_create (p : Params) (c : obj) : Params :=
  mkParams (model p) (action p)
    (match args p with
     | Some a => Some (mkArgs (args_where a) (args_data a) (Some c))
     | None => None
     end).

Definition set_action (p : Params) (a : string) : Params :=
  mkParams (model p) a (args p).

(** What the runtime raises when a property of [undefined] is read or
    assigned. *)
Definition reading_of_undefined (k : string) : exn :=
  TypeError ("Cannot read properties of undefined (reading '" ++ k ++ "')").

Definition setting_of_undefined (k : string) : exn :=
  TypeError ("Cannot set properties of undefined (setting '" ++ k ++ "')").

(** What a [$use] middleware does with the query: hand (possibly rewritten)
    parameters to [next], or throw. Every middleware of the service returns
    the result of [next] unchanged. *)
Inductive step : Type :=
| Next (p : Params)
| Throw (e : exn).

Definition middleware := Params → step.

Definition nonTenantModels : list string := ["Tenant"].

Definition tenantScopedModels : list string :=
  ["User"; "Role"; "Permission"; "UserRole"; "RolePermission";
   "ApiKey"; "AuditLog"; "Subscription"; "Invitation"; "Webhook"; "WebhookDelivery"].

(** [list.includes(params.model)]; [params.model] may be undefined. *)
Definition includes (l : list string) (m : option string) : bool :=
  match m with
  | Some s => bool_decide (s ∈ l)
  | None => false
  end.

Definition action_is (p : Params) (a : string) : bool := bool_decide (action p = a).

(** [params.args.where = { ...params.args.where, tenantId }]: reading
    [where] of an undefined [params.args] throws. *)
Definition scope_where (tenantId : jsval) (params : Params) : step :=
  match args params with
  | Some a => Next (set_where params (spread_with (args_where a) "tenantId" tenantId))
  | None => Throw (reading_of_undefined "where")
  end.

(** [params.args.data = { ...params.args.data, tenantId }] *)
Definition scope_data (tenantId : jsval) (params : Params) : step :=
  match args params with
  | Some a => Next (set_data params (spread_with (args_data a) "tenantId" tenantId))
  | None => Throw (reading_of_undefined "data")
  end.

(** [params.args.create = { ...params.args.create, tenantId }] *)
Definition scope_create (tenantId : jsval) (params : Params) : step :=
  match args params with
  | Some a => Next (set_create params (spread_with (args_create a) "tenantId" tenantId))
  | None => Throw (reading_of_undefined "create")
  end.

(** The first middleware of the constructor: automatic tenant isolation. *)
Definition tenantIsolation (cls : store) : middleware := fun params =>
  if includes nonTenantModels (model params) then Next params
  else
    let tenantId := cls_get cls TENANT_ID_KEY in
    if truthy tenantId then
      if includes tenantScopedModels (model params) then
        if action_is params "findUnique" || action_is params "findFirst" then
          scope_where tenantId params
        else if action_is params "findMany" then scope_where tenantId params
        else if action_is params "count" then scope_where tenantId params
        else if action_is params "aggregate" then scope_where tenantId params
        else if action_is params "update" || action_is params "updateMany" then
          scope_where tenantId params
        else if action_is params "delete" || action_is params "deleteMany" then
          scope_where tenantId params
        else if action_is params "create" then scope_data tenantId params
        else if action_is params "upsert" then
          match scope_where tenantId params with
          | Next params => scope_create tenantId params
          | Throw e => Throw e
          end
        else Next params
      else Next params
    else Next params.

(** The second middleware of the constructor only times the query and
    writes a debug line. *)
Definition queryLogging : middleware := fun params => Next params.

Section SoftDelete.

(** [new Date()] *)
Variable now : Z.

(** First middleware of [enableSoftDelete]: deletes become updates. The
    two [if]s run one after the other, on the action as it then is. *)
Definition softDeleteWrites : middleware := fun params =>
  let after_delete :=
    if action_is params "delete" then
      let params := set_action params "update" in
      match args params with
      | Some _ => Next (set_data params {["deletedAt" := JDate now]})
      | None => Throw (setting_of_undefined "data")
      end
    else Next params in
  match after_delete with
  | Throw e => Throw e
  | Next params =>
    if action_is params "deleteMany" then
      let params := set_action params "updateMany" in
      match args params with
      | Some a =>
        match args_data a with
        | Some d => Next (set_data params (<["deletedAt" := JDate now]> d))
        | None => Next (set_data params {["deletedAt" := JDate now]})
        end
      | None => Throw (reading_of_undefined "data")
      end
    else Next params
  end.

(** Second middleware of [enableSoftDelete]: reads skip deleted records.
    Reading [where] of an undefined [params.args], and assigning a property
    of an undefined [where], raise a [TypeError]. *)
Definition softDeleteReads : middleware := fun params =>
  let after_single :=
    if action_is params "findUnique" || action_is params "findFirst" then
      let params := set_action params "findFirst" in
      match args params with
      | Some a =>
        match args_where a with
        | Some w => Next (set_where params (<["deletedAt" := JNull]> w))
        | None => Throw (setting_of_undefined "deletedAt")
        end
      | None => Throw (reading_of_undefined "where")
      end
    else Next params in
  match after_single with
  | Throw e => Throw e
  | Next params =>
    if action_is params "findMany" then
      match args params with
      | Some a =>
        match args_where a with
        | Some w =>
          match getProp w "deletedAt" with
          | JUndefined => Next (set_where params (<["deletedAt" := JNull]> w))
          | _ => Next params
          end
        | None => Next (set_where params {["deletedAt" := JNull]})
        end
      | None => Throw (reading_of_undefined "where")
      end
    else Next params
  end.

Definition enableSoftDelete (registered : list middleware) : list middleware :=
  registered ++ [softDeleteWrites; softDeleteReads].

End SoftDelete.

(** Prisma runs the registered middlewares in registration order, each one
    around the rest; the innermost [next] is the query engine. *)
Fixpoint run (mws : list middleware) (p : Params) : step :=
  match mws with
  | [] => Next p
  | mw :: rest =>
    match mw p with
    | Next p' => run rest p'
    | Throw e => Throw e
    end
  end.

(** The middlewares installed by the constructor. *)
Definition constructed (cls : store) : list middleware :=
  [tenantIsolation cls; queryLogging].

Definition execute {R : Type} (engine : Params → outcome R)
    (mws : list middleware) (p : Params) : outcome R :=
  match run mws p with
  | Next p' => engine p'
  | Throw e => Thrown e
  end.

(** [withoutTenantScope(callback)]: the callback runs against the store
    and may itself write to it; [finally] runs on both exits. *)
Definition withoutTenantScope {T : Type}
    (callback : store → outcome T * store) (cls : store) : outcome T * store :=
  let originalTenantId := cls_get cls TENANT_ID_KEY in
  let cls := cls_set cls TENANT_ID_KEY JUndefined in
  let '(result, cls) := callback cls in
  (result, cls_set cls TENANT_ID_KEY originalTenantId).

End PrismaService.

(** ** The HTTP request as the pipeline sees it *)

(** [request.user]: the principal Passport attaches (id, tenant, roles). *)
Module User.
Record t : Type := mk {
  id : string;
  tenantId : string;
  roles : option (list string)
}.

Definition set_roles (u : t) (rs : option (list string)) : t :=
  mk (id u) (tenantId u) rs.
End User.

Module Request.
Record t : Type := mk {
  headers : gmap string string;
  path : string;
  method : string;
  url : string;
  ip : string;
  requestId : jsval;
  tenantId : jsval;
  user : option User.t
}.

Definition set_requestId (req : t) (v : jsval) : t :=
  mk (headers req) (path req) (method req) (url req) (ip req) v (tenantId req) (user req).

Definition set_tenantId (req : t) (v : jsval) : t :=
  mk (headers req) (path req) (method req) (url req) (ip req) (requestId req) v (user req).

Definition set_user (req : t) (u : User.t) : t :=
  mk (headers req) (path req) (method req) (url req) (ip req) (requestId req) (tenantId req) (Some u).
End Request.

(** The [User] entity's authorisation helpers [hasRole] and
    [hasPermission]; both are stubs that answer [false]. *)
Module UserEntity.
Definition hasRole {E : Type} (this : E) (role : string) : bool := false.
Definition hasPermission {E : Type} (this : E) (permission : string) : bool := false.
End UserEntity.

(** ** String helpers of the JavaScript runtime *)

Module Str.

(** [s.split(sep)] for a one-character separator. *)
Fixpoint split (sep : ascii) (s : string) : list string :=
  match s with
  | EmptyString => [EmptyString]
  | String c s' =>
    if Ascii.eqb c sep then EmptyString :: split sep s'
    else match split sep s' with
         | [] => [String c EmptyString]
         | w :: ws => String c w :: ws
         end
  end.

(** Does the character occur in the string? *)
Fixpoint has_char (c : ascii) (s : string) : bool :=
  match s with
  | EmptyString => false
  | String c' s' => Ascii.eqb c' c || has_char c s'
  end.

Definition lower (c : ascii) : ascii :=
  let n := nat_of_ascii c in
  if (65 <=? n)%nat && (n <=? 90)%nat then ascii_of_nat (n + 32) else c.

Fixpoint toLowerCase (s : string) : string :=
  match s with
  | EmptyString => EmptyString
  | String c s' => String (lower c) (toLowerCase s')
  end.

(** [[a-z0-9-]] under the [i] flag. *)
Definition is_slug_char (c : ascii) : bool :=
  let n := nat_of_ascii (lower c) in
  ((97 <=? n)%nat && (n <=? 122)%nat) || ((48 <=? n)%nat && (n <=? 57)%nat) || (n =? 45)%nat.

(** The greedy run [[a-z0-9-]*] at the start of [s]. *)
Fixpoint slug_run (s : string) : string :=
  match s with
  | String c s' => if is_slug_char c then String c (slug_run s') else EmptyString
  | EmptyString => EmptyString
  end.

(** Case-insensitive literal prefix; returns what follows it. *)
Fixpoint strip_prefix_ci (p s : string) : option string :=
  match p, s with
  | EmptyString, _ => Some s
  | String a p', String b s' =>
    if Ascii.eqb (lower a) (lower b) then strip_prefix_ci p' s' else None
  | String _ _, EmptyString => None
  end.

(** [s.match(/\/public\/book\/([a-z0-9-]+)/i)]: the capture group of the
    leftmost match, if any. *)
Fixpoint match_public_book (s : string) : option string :=
  let here :=
    match strip_prefix_ci "/public/book/" s with
    | Some rest =>
      match slug_run rest with
      | EmptyString => None
      | slug => Some slug
      end
    | None => None
    end in
  match here with
  | Some slug => Some slug
  | None =>
    match s with
    | String _ s' => match_public_book s'
    | EmptyString => None
    end
  end.

End Str.

(** ** TenantMiddleware *)

Module TenantMiddleware.

Section Collaborators.

(** [JwtService.decode]: no signature check; may return any value or throw. *)
Variable decode : string → outcome jsval.
(** [uuidv4()] *)
Variable uuid : string.

(** Extract Bearer token from Authorization header. *)
Definition extractTokenFromHeader (req : Request.t) : jsval :=
  match Request.headers req !! "authorization" with
  | None => JNull
  | Some authHeader =>
    if negb (truthy (JStr authHeader)) then JNull
    else
      let parts := Str.split " " authHeader in
      let type := default EmptyString (head parts) in
      let token := from_option JStr JUndefined (parts !! 1%nat) in
      if bool_decide (type = "Bearer") then token else JNull
  end.

Definition extractFromJWT (req : Request.t) : jsval :=
  let token := extractTokenFromHeader req in
  match token with
  | JStr tok =>
    if negb (truthy token) then JNull
    else
      match decode tok with
      | Returned decoded => js_or (getPropOpt decoded "tenantId") JNull
      | Thrown _ => JNull
      end
  | _ => JNull
  end.

Definition extractFromHeader (req : Request.t) : jsval :=
  js_or (from_option JStr JUndefined (Request.headers req !! Str.toLowerCase TENANT_HEADER)) JNull.

(** The slug is recognised, but the lookup is a placeholder: both
    branches return [null]. *)
Definition extractFromSlug (req : Request.t) : jsval :=
  match Str.match_public_book (Request.path req) with
  | Some slugMatch => JNull
  | None => JNull
  end.

(** The local [tenantId] of [use] after the three extraction steps. *)
Definition resolveTenantId (req : Request.t) : jsval :=
  let tenantId := extractFromJWT req in
  let tenantId := if negb (truthy tenantId) then extractFromHeader req else tenantId in
  let tenantId := if negb (truthy tenantId) then extractFromSlug req else tenantId in
  tenantId.

(** [use(req, res, next)]: the store and the request as [next] finds them. *)
Definition use (cls : store) (req : Request.t) : store * Request.t :=
  let requestId := JStr uuid in
  let cls := cls_set cls REQUEST_ID_KEY requestId in
  let req := Request.set_requestId req requestId in
  let tenantId := resolveTenantId req in
  if truthy tenantId then
    (cls_set cls TENANT_ID_KEY tenantId, Request.set_tenantId req tenantId)
  else (cls, req).

End Collaborators.

End TenantMiddleware.

(** ** Route metadata: decorators and the Reflector *)

Module Reflector.

Record AuditOptions : Type := mkAuditOptions {
  audit_action : string;
  audit_resource : string;
  audit_description : option string
}.

(** What [SetMetadata] has stored on a handler or on a controller class,
    one field per metadata key. *)
Record Metadata : Type := mkMetadata {
  isPublic : option bool;
  roles : option (list string);
  permissions : option (list string);
  audit : option AuditOptions
}.

Definition undecorated : Metadata := mkMetadata None None None None.

Definition set_permissions (m : Metadata) (ps : option (list string)) : Metadata :=
  mkMetadata (isPublic m) (roles m) ps (audit m).

(** [reflector.get(KEY, target)] *)
Definition get {A : Type} (key : Metadata → option A) (target : Metadata) : option A :=
  key target.

(** [reflector.getAllAndOverride(KEY, targets)]: the first defined value. *)
Definition getAllAndOverride {A : Type} (key : Metadata → option A)
    (targets : list Metadata) : option A :=
  head (omap key targets).

Record ExecutionContext : Type := mkContext {
  getHandler : Metadata;
  getClass : Metadata;
  getRequest : Request.t
}.

Definition with_request (ctx : ExecutionContext) (req : Request.t) : ExecutionContext :=
  mkContext (getHandler ctx) (getClass ctx) req.

(** The route is marked public: the handler's flag, else the class's. *)
Definition markedPublic (ctx : ExecutionContext) : bool :=
  default false (getAllAndOverride isPublic [getHandler ctx; getClass ctx]).

End Reflector.
Export Reflector.

Module Decorators.

(** [@Public()] = [SetMetadata(IS_PUBLIC_KEY, true)] *)
Definition Public (m : Metadata) : Metadata :=
  mkMetadata (Some true) (roles m) (permissions m) (audit m).

(** [@Roles(...roles)] = [SetMetadata(ROLES_KEY, roles)] *)
Definition Roles (rs : list string) (m : Metadata) : Metadata :=
  mkMetadata (isPublic m) (Some rs) (permissions m) (audit m).

(** [@Permissions(...permissions)] = [SetMetadata(PERMISSIONS_KEY, permissions)] *)
Definition Permissions (ps : list string) (m : Metadata) : Metadata :=
  mkMetadata (isPublic m) (roles m) (Some ps) (audit m).

(** [@Audit(options)] = [SetMetadata(AUDIT_KEY, options)] *)
Definition Audit (options : AuditOptions) (m : Metadata) : Metadata :=
  mkMetadata (isPublic m) (roles m) (permissions m) (Some options).

End Decorators.

(** ** Guards

    A guard either returns [true], leaving the request as shown, or throws. *)

Module JwtAuthGuard.

(** What the Passport strategy reports to [handleRequest]. *)
Record PassportResult : Type := mkPassport {
  err : option exn;
  user : option User.t
}.

Definition handleRequest (err : option exn) (user : option User.t) : outcome User.t :=
  match err, user with
  | Some e, _ => Thrown e
  | None, None => Thrown (UnauthorizedException "Invalid or expired token")
  | None, Some u => Returned u
  end.

Section Passport.

Variable strategy : Request.t → PassportResult.

Definition canActivate (context : ExecutionContext) : outcome Request.t :=
  let isPublic := getAllAndOverride isPublic [getHandler context; getClass context] in
  if default false isPublic then Returned (getRequest context)
  else
    let request := getRequest context in
    match handleRequest (err (strategy request)) (user (strategy request)) with
    | Returned u => Returned (Request.set_user request u)
    | Thrown e => Thrown e
    end.

End Passport.

End JwtAuthGuard.

Module TenantGuard.

Definition canActivate (cls : store) (context : ExecutionContext) : outcome Request.t :=
  let isPublic := getAllAndOverride isPublic [getHandler context; getClass context] in
  if default false isPublic then Returned (getRequest context)
  else
    let request := getRequest context in
    let tenantId := js_or (cls_get cls TENANT_ID_KEY) (Request.tenantId request) in
    if negb (truthy tenantId) then
      Thrown (UnauthorizedException HTTP_MESSAGES.TENANT_REQUIRED)
    else
      match Request.user request with
      | Some user =>
        if negb (strict_eq_str (User.tenantId user) tenantId) then
          Thrown (ForbiddenException HTTP_MESSAGES.TENANT_MISMATCH)
        else Returned (Request.set_tenantId request tenantId)
      | None => Returned (Request.set_tenantId request tenantId)
      end.

End TenantGuard.

Module RolesGuard.

Fixpoint join (sep : string) (l : list string) : string :=
  match l with
  | [] => ""
  | [x] => x
  | x :: rest => x ++ sep ++ join sep rest
  end.

Definition matchRoles (requiredRoles : list string) (userRoles : option (list string)) : bool :=
  match userRoles with
  | None | Some [] => false
  | Some userRoles =>
    if bool_decide (UserRole.SUPER_ADMIN ∈ userRoles) then true
    else existsb (fun role => bool_decide (role ∈ userRoles)) requiredRoles
  end.

Definition canActivate (context : ExecutionContext) : outcome Request.t :=
  let requiredRoles := getAllAndOverride roles [getHandler context; getClass context] in
  match requiredRoles with
  | None | Some [] => Returned (getRequest context)
  | Some requiredRoles =>
    let request := getRequest context in
    match Request.user request with
    | None => Thrown (ForbiddenException "User not authenticated")
    | Some user =>
      let hasRole := matchRoles requiredRoles (User.roles user) in
      if negb hasRole then
        Thrown (ForbiddenException
                  ("Insufficient permissions. Required roles: " ++ join ", " requiredRoles))
      else Returned request
    end
  end.

End RolesGuard.

(** The guards in the order Nest runs them: the global ones of [main.ts]
    ([JwtAuthGuard], then [TenantGuard]), then the route's [RolesGuard].
    The first one to throw ends the request. *)
Module Pipeline.

Section Guards.

Variable strategy : Request.t → JwtAuthGuard.PassportResult.

Definition runGuards (cls : store) (context : ExecutionContext) : outcome Request.t :=
  match JwtAuthGuard.canActivate strategy context with
  | Thrown e => Thrown e
  | Returned request =>
    match TenantGuard.canActivate cls (with_request context request) with
    | Thrown e => Thrown e
    | Returned request => RolesGuard.canActivate (with_request context request)
    end
  end.

End Guards.

End Pipeline.

(** ** AuditInterceptor *)

(** RxJS [tap] on a stream that delivers one value or one error: the
    callback runs first; if it throws, its exception goes down the error
    channel in place of the notification. A callback is given by what it
    throws, [None] when it returns. *)
Module Rx.

Definition tap {A : Type} (next : A → option exn) (error : exn → option exn)
    (source : outcome A) : outcome A :=
  match source with
  | Returned value =>
    match next value with
    | None => Returned value
    | Some thrown => Thrown thrown
    end
  | Thrown err =>
    match error err with
    | None => Thrown err
    | Some thrown => Thrown thrown
    end
  end.

End Rx.

Module AuditInterceptor.

Record AuditData : Type := mkAuditData {
  action : string;
  resource : string;
  description : option string;
  userId : option string;
  tenantId : jsval;
  ipAddress : string;
  userAgent : option string;
  method : string;
  url : string;
  timestamp : string
}.

(** The two calls made on the Nest [Logger]. *)
Inductive LogCall : Type :=
| LoggerLog (message : string) (data : AuditData)
| LoggerError (message : string) (data : AuditData) (error : jsval).

(** [error.message]: reading a property of [undefined] or [null] raises a
    [TypeError]; the Nest exceptions carry their message. *)
Definition message (error : exn) : outcome jsval :=
  match error with
  | TypeError msg | UnauthorizedException msg | ForbiddenException msg => Returned (JStr msg)
  | Raised JUndefined => Thrown (TypeError "Cannot read properties of undefined (reading 'message')")
  | Raised JNull => Thrown (TypeError "Cannot read properties of null (reading 'message')")
  | Raised v => Returned (getPropOpt v "message")
  end.

Section Collaborators.

(** The logger: what a call throws, [None] when it returns. *)
Variable logger : LogCall → option exn.
(** [new Date().toISOString()] *)
Variable isoNow : string.

(** The [auditData] object built before the handler is subscribed to. *)
Definition buildAuditData (auditOptions : AuditOptions) (request : Request.t) : AuditData :=
  mkAuditData (audit_action auditOptions) (audit_resource auditOptions)
    (audit_description auditOptions)
    (User.id <$> Request.user request) (Request.tenantId request)
    (Request.ip request) (Request.headers request !! "user-agent")
    (Request.method request) (Request.url request) isoNow.

Definition intercept (context : ExecutionContext) (handle : outcome jsval) : outcome jsval :=
  match Reflector.get audit (getHandler context) with
  | None => handle
  | Some auditOptions =>
    let request := getRequest context in
    let auditData := buildAuditData auditOptions request in
    Rx.tap
      (fun result => logger (LoggerLog "Audit log created" auditData))
      (fun error =>
         match message error with
         | Returned msg => logger (LoggerError "Audit log created (failed action)" auditData msg)
         | Thrown thrown => Some thrown
         end)
      handle
  end.

End Collaborators.

End AuditInterceptor.

(** ** One request through guards, interceptor and handler *)

Module Route.

Section Collaborators.

Variable strategy : Request.t → JwtAuthGuard.PassportResult.
Variable logger : AuditInterceptor.LogCall → option exn.
Variable isoNow : string.

Definition dispatch (cls : store) (context : ExecutionContext)
    (handler : Request.t → outcome jsval) : outcome jsval :=
  match Pipeline.runGuards strategy cls context with
  | Thrown e => Thrown e
  | Returned request =>
    AuditInterceptor.intercept logger isoNow (with_request context request) (handler request)
  end.

End Collaborators.

End Route.

(** ** ApiKeyGuard *)

Module ApiKeyGuard.

Definition API_KEY_HEADER := "X-API-Key".

(** [s.charCodeAt(i)]; [None] stands for [NaN], the answer out of range. *)
Definition charCodeAt (s : string) (i : nat) : option Z :=
  (fun c => Z.of_nat (nat_of_ascii c)) <$> String.get i s.

(** [ToInt32] as [^] and [|] apply it to a code unit or to [NaN]. *)
Definition toInt32 (n : option Z) : Z := default 0%Z n.

(** Constant-time string comparison. *)
Definition secureCompare (a b : string) : bool :=
  if negb (String.length a =? String.length b)%nat then false
  else
    let result :=
      fold_left
        (fun result i =>
           Z.lor result (Z.lxor (toInt32 (charCodeAt a i)) (toInt32 (charCodeAt b i))))
        (seq 0 (String.length a)) 0%Z in
    (result =? 0)%Z.

Section Config.

(** [apiKeys.internal] of the configuration, [INTERNAL_API_KEY] if set. *)
Variable configured : option string.

(** [configService.get('apiKeys.internal', '')] *)
Definition internalApiKey : string := default "" configured.

(** [apiKeyRequiredOn]: the [API_KEY_REQUIRED] flag [@ApiKeyRequired()] has
    set on the handler and on the class. *)
Definition canActivate (requiredOnHandler requiredOnClass : option bool)
    (request : Request.t) : outcome Request.t :=
  let apiKeyRequired := head (omap id [requiredOnHandler; requiredOnClass]) in
  if negb (default false apiKeyRequired) then Returned request
  else
    let apiKey :=
      from_option JStr JUndefined (Request.headers request !! Str.toLowerCase API_KEY_HEADER) in
    match apiKey with
    | JStr key =>
      if negb (truthy apiKey) then Thrown (UnauthorizedException "API key is required")
      else
        let isValid := secureCompare key internalApiKey in
        if negb isValid then Thrown (UnauthorizedException "Invalid API key")
        else Returned request
    | _ => Thrown (UnauthorizedException "API key is required")
    end.

End Config.

End ApiKeyGuard.

(** ** LoggingInterceptor.sanitizeBody *)

Module LoggingInterceptor.

Definition sensitiveFields : list string :=
  ["password"; "passwordConfirm"; "token"; "refreshToken";
   "apiKey"; "secret"; "creditCard"; "ssn"].

(** The own enumerable properties of a string: its characters by index. *)
Fixpoint spread_string (i : nat) (s : string) : obj :=
  match s with
  | EmptyString => ∅
  | String c s' => <[pretty i := JStr (String c EmptyString)]> (spread_string (S i) s')
  end.

(** [{ ...body }] for a truthy [body]. *)
Definition spread (body : jsval) : obj :=
  match body with
  | JObject o => o
  | JStr s => spread_string 0 s
  | _ => ∅
  end.

(** One turn of the loop over [sensitiveFields]. *)
Definition redact (sanitized : obj) (field : string) : obj :=
  if truthy (getProp sanitized field) then <[field := JStr "[REDACTED]"]> sanitized
  else sanitized.

Definition sanitizeBody (body : jsval) : jsval :=
  if negb (truthy body) then body
  else
    let sanitized := spread body in
    JObject (fold_left redact sensitiveFields sanitized).

End LoggingInterceptor.

(** ** Exception filters *)

Module Filters.

(** What [exception.getResponse()] returns. *)
Inductive Response : Type :=
| RString (s : string)
| RObject (o : obj).

(** What a filter is handed: an [HttpException] with its status, response
    and stack, another [Error] with its message and stack, or any other
    thrown value. *)
Inductive Exception : Type :=
| HttpException (status : Z) (response : Response) (stack : jsval)
| Error (message : string) (stack : jsval)
| Other (v : jsval).

(** What the filter does with the HTTP response: [status(..).json(..)]. *)
Record Reply : Type := mkReply {
  replyStatus : Z;
  replyBody : obj
}.

Definition INTERNAL_SERVER_ERROR : Z := 500.

Section Environment.

(** [process.env.NODE_ENV] *)
Variable NODE_ENV : option string.
(** [new Date().toISOString()] *)
Variable isoNow : string.

Definition production : bool := bool_decide (NODE_ENV = Some "production").

(** [{ ..., ...(process.env.NODE_ENV !== 'production' && { stack }) }] *)
Definition with_stack (error : obj) (stack : jsval) : obj :=
  if negb production then <["stack" := stack]> error else error.

Definition errorBody (status : Z) (request : Request.t) (message : jsval) : obj :=
  {[ "statusCode" := JNum status;
     "timestamp" := JStr isoNow;
     "path" := JStr (Request.url request);
     "method" := JStr (Request.method request);
     "message" := message ]}.

Definition failure (status : Z) (error : obj) : Reply :=
  mkReply status {[ "success" := JBool false; "error" := JObject error ]}.

End Environment.

End Filters.

Module HttpExceptionFilter.

Import Filters.

Definition extractMessage (exceptionResponse : Response) : jsval :=
  match exceptionResponse with
  | RString s => JStr s
  | RObject o =>
    match o !! "message" with
    | Some _ => getProp o "message"
    | None => JStr "An error occurred"
    end
  end.

Section Environment.

Variable NODE_ENV : option string.
Variable isoNow : string.

(** [catch(exception, host)] for the [HttpException] it is registered for. *)
Definition catch (status : Z) (exceptionResponse : Response) (stack : jsval)
    (request : Request.t) : Reply :=
  let error :=
    with_stack NODE_ENV
      (errorBody isoNow status request (extractMessage exceptionResponse)) stack in
  failure status error.

End Environment.

End HttpExceptionFilter.

Module AllExceptionsFilter.

Import Filters.

Section Environment.

Variable NODE_ENV : option string.
Variable isoNow : string.

Definition catch (exception : Exception) (request : Request.t) : Reply :=
  let status := INTERNAL_SERVER_ERROR in
  let message := JStr "Internal server error" in
  let stack := JUndefined in
  let '(status, message, stack) :=
    match exception with
    | HttpException exceptionStatus exceptionResponse exceptionStack =>
      (exceptionStatus,
       match exceptionResponse with
       | RString s => JStr s
       | RObject o => js_or (getProp o "message") message
       end,
       exceptionStack)
    | Error exceptionMessage exceptionStack => (status, JStr exceptionMessage, exceptionStack)
    | Other _ => (status, message, stack)
    end in
  let error :=
    with_stack NODE_ENV
      (errorBody isoNow status request
         (if production NODE_ENV then JStr "Internal server error" else message))
      stack in
  failure status error.

End Environment.

End AllExceptionsFilter.

(** ** The frontend's view: token storage, request interceptor, role helpers *)

Module ApiClient.

Definition TOKEN_KEY := "access_token".
Definition REFRESH_TOKEN_KEY := "refresh_token".

(** [localStorage] *)
Abbreviation storage := (gmap string string).

Definition getAccessToken (localStorage : storage) : option string :=
  localStorage !! TOKEN_KEY.
Definition setAccessToken (localStorage : storage) (token : string) : storage :=
  <[TOKEN_KEY := token]> localStorage.
Definition getRefreshToken (localStorage : storage) : option string :=
  localStorage !! REFRESH_TOKEN_KEY.
Definition setRefreshToken (localStorage : storage) (token : string) : storage :=
  <[REFRESH_TOKEN_KEY := token]> localStorage.
Definition clearTokens (localStorage : storage) : storage :=
  delete REFRESH_TOKEN_KEY (delete TOKEN_KEY localStorage).

(** The request interceptor, on [config.headers]. *)
Definition addAuthToken (localStorage : storage) (headers : gmap string string)
    : gmap string string :=
  match getAccessToken localStorage with
  | Some token =>
    if truthy (JStr token) then <["Authorization" := "Bearer " ++ token]> headers
    else headers
  | None => headers
  end.

End ApiClient.

Module AuthStore.

(** [user?.roles?.includes(role)]: [None] stands for [undefined]. *)
Definition includesRole (user : option User.t) (role : string) : option bool :=
  match user with
  | Some user =>
    match User.roles user with
    | Some roles => Some (bool_decide (role ∈ roles))
    | None => None
    end
  | None => None
  end.

(** [a || b] on an optional boolean and a boolean. *)
Definition orElse (a : option bool) (b : bool) : bool :=
  match a with
  | Some true => true
  | _ => b
  end.

Definition hasRole (user : option User.t) (role : string) : bool :=
  orElse (includesRole user role) false.

Definition isAdmin (user : option User.t) : bool :=
  orElse (includesRole user "admin") (orElse (includesRole user "super_admin") false).

End AuthStore.

(** * Properties *)

(** ** The tenant-isolation middleware *)

Section TenantIsolation.

Import PrismaService.

Lemma includes_true (l : list string) (m : option string) :
  includes l m = true ↔ ∃ s, m = Some s ∧ s ∈ l.
Proof.
  destruct m as [s|]; simpl.
  - rewrite bool_decide_eq_true. split; [eauto | intros (s' & [= <-] & ?); done].
  - split; [done | intros (? & ? & ?); done].
Qed.

(** With [params.args] an object, tenant isolation does not throw: every
    branch ends in [next(params)]. *)
Lemma tenantIsolation_calls_next (cls : store) (p : Params) :
  is_Some (args p) → ∃ p', tenantIsolation cls p = Next p'.
Proof.
  intros [a Ha]. unfold tenantIsolation, scope_where, scope_data, scope_create.
  rewrite Ha. cbn [set_where args]. rewrite ?Ha.
  repeat match goal with
         | |- context [if ?b then _ else _] => destruct b
         end; eauto.
Qed.

(** A counterexample to fail-closed behaviour: with an empty store, a
    [findMany] on the tenant-scoped model [User] is not rejected; it reaches
    the engine exactly as the caller wrote it, with no tenant filter. *)
Lemma unscoped_query_runs_without_tenant :
  let cls : store := ∅ in
  let p := mkParams (Some "User") "findMany" None in
  includes tenantScopedModels (model p) = true ∧
  truthy (cls_get cls TENANT_ID_KEY) = false ∧
  (¬ ∃ e, tenantIsolation cls p = Throw e) ∧
  tenantIsolation cls p = Next p ∧
  execute (fun q => Returned q) (constructed cls) p = Returned p.
Proof.
  repeat split; try reflexivity.
  intros [e He]. vm_compute in He. discriminate He.
Qed.

(** C1 (as the code has it): while no tenant id is resolved in the store,
    the tenant-isolation middleware does not reject anything; it hands the
    operation to [next] unchanged, so the gateway built by the constructor
    runs the caller's own query on the engine. This is also the only thing
    [withoutTenantScope] relies on: there is no separate escape-hatch flag. *)
Theorem tenant_isolation_passes_through_without_tenant
    (cls : store) (p : Params) :
  truthy (cls_get cls TENANT_ID_KEY) = false →
  tenantIsolation cls p = Next p ∧
  ∀ (R : Type) (engine : Params → outcome R),
    execute engine (constructed cls) p = engine p.
Proof.
  intros Hno.
  assert (Hmw : tenantIsolation cls p = Next p).
  { unfold tenantIsolation. rewrite Hno. by destruct (includes nonTenantModels _). }
  split; [exact Hmw|].
  intros R engine. unfold execute, constructed. simpl. by rewrite Hmw.
Qed.

Lemma tenant_isolation_passes_through_without_tenant_witness :
  truthy (cls_get (∅ : store) TENANT_ID_KEY) = false ∧
  tenantIsolation ∅ (mkParams (Some "User") "deleteMany" None)
    = Next (mkParams (Some "User") "deleteMany" None).
Proof.
  split; [reflexivity|].
  apply (tenant_isolation_passes_through_without_tenant ∅
           (mkParams (Some "User") "deleteMany" None)).
  reflexivity.
Defined.

(** ** The escape hatch *)

(** C5: [withoutTenantScope] runs the callback on a store whose tenant id
    reads [undefined], hands back whatever the callback returned or threw,
    and leaves a store whose tenant id reads exactly as before the call,
    absent included, whatever the callback did to the store. *)
Theorem withoutTenantScope_restores_tenant
    (T : Type) (callback : store → outcome T * store) (cls : store) :
  let cleared := cls_set cls TENANT_ID_KEY JUndefined in
  cls_get cleared TENANT_ID_KEY = JUndefined ∧
  (withoutTenantScope callback cls).1 = (callback cleared).1 ∧
  cls_get (withoutTenantScope callback cls).2 TENANT_ID_KEY = cls_get cls TENANT_ID_KEY ∧
  ∀ key, key ≠ TENANT_ID_KEY →
    cls_get (withoutTenantScope callback cls).2 key = cls_get (callback cleared).2 key.
Proof.
  unfold withoutTenantScope, cls_get, cls_set, getProp. cbv zeta.
  destruct (callback _) as [result cls'] eqn:Hcb. cbn [fst snd].
  split_and!.
  - by rewrite lookup_insert_eq.
  - done.
  - rewrite lookup_insert_eq. by destruct (cls !! TENANT_ID_KEY).
  - intros key Hkey. by rewrite lookup_insert_ne.
Qed.

End TenantIsolation.

(** ** The tenant resolver *)

Section TenantResolver.

Import TenantMiddleware.

Variable decode : string → outcome jsval.
Variable uuid : string.

Lemma split_without_separator (sep : ascii) (s : string) :
  Str.has_char sep s = false → Str.split sep s = [s].
Proof.
  induction s as [|c s IH]; simpl; [done|].
  intros [Hc Hs]%orb_false_elim. rewrite Hc, (IH Hs). done.
Qed.

Lemma truthy_JStr (s : string) : s ≠ "" → truthy (JStr s) = true.
Proof. intros Hs. simpl. by rewrite bool_decide_eq_false_2. Qed.

(** A well-formed bearer header yields its token. *)
Lemma extractTokenFromHeader_bearer (req : Request.t) (tok : string) :
  Request.headers req !! "authorization" = Some ("Bearer " ++ tok) →
  Str.has_char " " tok = false →
  extractTokenFromHeader req = JStr tok.
Proof.
  intros Hauth Hsp. unfold extractTokenFromHeader. rewrite Hauth.
  change (Str.split " " ("Bearer " ++ tok)) with ("Bearer" :: Str.split " " tok).
  rewrite (split_without_separator _ _ Hsp). reflexivity.
Qed.

(** The three steps read headers and path only. *)
Lemma resolveTenantId_requestId (req : Request.t) (v : jsval) :
  resolveTenantId decode (Request.set_requestId req v) = resolveTenantId decode req.
Proof. reflexivity. Qed.

(** Whatever the path looks like, the slug step yields [null]. *)
Lemma extractFromSlug_null (req : Request.t) : extractFromSlug req = JNull.
Proof. unfold extractFromSlug. by destruct (Str.match_public_book _). Qed.

(** A resolved tenant id is written to the store and attached to the request. *)
Lemma use_writes_resolved (cls : store) (req : Request.t) :
  truthy (resolveTenantId decode req) = true →
  cls_get (use decode uuid cls req).1 TENANT_ID_KEY = resolveTenantId decode req ∧
  Request.tenantId (use decode uuid cls req).2 = resolveTenantId decode req.
Proof.
  intros Hres. unfold use. rewrite resolveTenantId_requestId, Hres. cbn [fst snd].
  split; [|reflexivity].
  unfold cls_get, cls_set, getProp. by rewrite lookup_insert_eq.
Qed.

(** When no tenant is resolved, [use] writes the request id only. *)
Lemma use_without_tenant (cls : store) (req : Request.t) :
  truthy (resolveTenantId decode req) = false →
  use decode uuid cls req
  = (cls_set cls REQUEST_ID_KEY (JStr uuid), Request.set_requestId req (JStr uuid)).
Proof. intros Hres. unfold use. by rewrite resolveTenantId_requestId, Hres. Qed.

(** C3, on the code: the resolver has two working sources, tried in order,
    and the first that yields a value wins. A claim [t1] in a decodable
    bearer token is the resolved tenant whatever the header and the path
    say; without a claim a tenant header [t2] is the resolved tenant
    whatever the path says. The third source is not there: when token and
    header yield nothing the resolver calls the slug step, which returns
    [null] for every path, public slug routes included, so no tenant is
    resolved and [use] writes only the request id. A resolved id is what
    [use] writes to the store and attaches to the request. *)
Theorem tenant_resolution_priority (cls : store) (req : Request.t) :
  (∀ tok payload t1,
     Request.headers req !! "authorization" = Some ("Bearer " ++ tok) →
     tok ≠ "" → Str.has_char " " tok = false →
     decode tok = Returned (JObject payload) →
     payload !! "tenantId" = Some (JStr t1) → t1 ≠ "" →
     resolveTenantId decode req = JStr t1) ∧
  (∀ t2,
     truthy (extractFromJWT decode req) = false →
     Request.headers req !! "x-tenant-id" = Some t2 → t2 ≠ "" →
     resolveTenantId decode req = JStr t2) ∧
  (truthy (extractFromJWT decode req) = false →
   truthy (extractFromHeader req) = false →
   resolveTenantId decode req = extractFromSlug req ∧
   resolveTenantId decode req = JNull ∧
   use decode uuid cls req
   = (cls_set cls REQUEST_ID_KEY (JStr uuid), Request.set_requestId req (JStr uuid))) ∧
  (truthy (resolveTenantId decode req) = true →
   cls_get (use decode uuid cls req).1 TENANT_ID_KEY = resolveTenantId decode req ∧
   Request.tenantId (use decode uuid cls req).2 = resolveTenantId decode req).
Proof.
  split_and!.
  - intros tok payload t1 Hauth Htok Hsp Hdec Hclaim Ht1.
    unfold resolveTenantId, extractFromJWT.
    rewrite (extractTokenFromHeader_bearer _ _ Hauth Hsp), (truthy_JStr _ Htok), Hdec.
    cbn [negb getPropOpt]. unfold getProp. rewrite Hclaim.
    cbn [default from_option id]. unfold js_or.
    rewrite !(truthy_JStr _ Ht1). cbn [negb]. by rewrite (truthy_JStr _ Ht1).
  - intros t2 Hjwt Hhdr Ht2. unfold resolveTenantId. rewrite Hjwt. cbn [negb].
    assert (Hh : extractFromHeader req = JStr t2).
    { unfold extractFromHeader. change (Str.toLowerCase TENANT_HEADER) with "x-tenant-id".
      rewrite Hhdr. cbn [from_option]. unfold js_or. by rewrite (truthy_JStr _ Ht2). }
    by rewrite Hh, (truthy_JStr _ Ht2).
  - intros Hjwt Hhdr.
    assert (Hres : resolveTenantId decode req = extractFromSlug req).
    { unfold resolveTenantId. rewrite Hjwt. cbn [negb]. by rewrite Hhdr. }
    split_and!; [exact Hres | by rewrite Hres, extractFromSlug_null |].
    apply use_without_tenant. by rewrite Hres, extractFromSlug_null.
  - apply use_writes_resolved.
Qed.

End TenantResolver.

(** Scenario D: the token claims [t1], the header says [t2]; [t1] wins and
    is what the store holds afterwards. Scenario B: no token, the header
    says [t2]; [t2] is resolved. Then a request for the public booking page
    of [globex] whose token carries no claim and which has no tenant
    header: the path matches the slug pattern, and nothing is resolved. *)
Lemma tenant_resolution_priority_witness :
  let decode := fun tok : string =>
    if bool_decide (tok = "abc") then Returned (JObject {["tenantId" := JStr "t1"]})
    else Thrown (Raised JNull) in
  let both := Request.mk {["authorization" := "Bearer abc"; "x-tenant-id" := "t2"]}
                "/public/book/acme" "GET" "/public/book/acme" "10.0.0.1"
                JUndefined JUndefined None in
  let headerOnly := Request.mk {["x-tenant-id" := "t2"]}
                      "/public/book/acme" "GET" "/public/book/acme" "10.0.0.1"
                      JUndefined JUndefined None in
  let slugOnly := Request.mk {["authorization" := "Bearer xyz"]}
                    "/public/book/globex" "GET" "/public/book/globex" "10.0.0.1"
                    JUndefined JUndefined None in
  TenantMiddleware.resolveTenantId decode both = JStr "t1" ∧
  cls_get (TenantMiddleware.use decode "id" ∅ both).1 TENANT_ID_KEY
  = TenantMiddleware.resolveTenantId decode both ∧
  TenantMiddleware.resolveTenantId decode headerOnly = JStr "t2" ∧
  Str.match_public_book (Request.path slugOnly) = Some "globex" ∧
  TenantMiddleware.resolveTenantId decode slugOnly = TenantMiddleware.extractFromSlug slugOnly ∧
  TenantMiddleware.resolveTenantId decode slugOnly = JNull ∧
  TenantMiddleware.use decode "id" ∅ slugOnly
  = (cls_set ∅ REQUEST_ID_KEY (JStr "id"), Request.set_requestId slugOnly (JStr "id")).
Proof.
  intros decode both headerOnly slugOnly.
  refine (conj _ (conj _ (conj _ (conj _ _)))).
  - apply (proj1 (tenant_resolution_priority decode "id" ∅ both)
             "abc" {["tenantId" := JStr "t1"]} "t1");
      [reflexivity | discriminate | reflexivity | reflexivity | reflexivity | discriminate].
  - apply (proj2 (proj2 (proj2 (tenant_resolution_priority decode "id" ∅ both)))).
    reflexivity.
  - apply (proj1 (proj2 (tenant_resolution_priority decode "id" ∅ headerOnly)) "t2");
      [reflexivity | reflexivity | discriminate].
  - reflexivity.
  - apply (proj1 (proj2 (proj2 (tenant_resolution_priority decode "id" ∅ slugOnly))));
      reflexivity.
Defined.

(** C4, on the code: a request with no bearer token and no tenant header
    for [/public/book/acme]. The pattern matches and captures [acme], yet
    the slug step returns [null] without any lookup, so no tenant is
    resolved: the store gets only the request id and the request no tenant
    id, whatever tenants exist. *)
Theorem public_slug_route_resolves_no_tenant :
  let req := Request.mk ∅ "/public/book/acme" "GET" "/public/book/acme" "10.0.0.1"
               JUndefined JUndefined None in
  Str.match_public_book (Request.path req) = Some "acme" ∧
  ∀ (decode : string → outcome jsval) (uuid : string),
    TenantMiddleware.extractFromSlug req = JNull ∧
    TenantMiddleware.resolveTenantId decode req = JNull ∧
    TenantMiddleware.use decode uuid ∅ req =
      ({[REQUEST_ID_KEY := JStr uuid]}, Request.set_requestId req (JStr uuid)).
Proof.
  split; [reflexivity|]. intros decode uuid. split_and!; reflexivity.
Qed.

(** ** The tenant guard *)

Section TenantGuardFacts.

Import TenantGuard.

(** The tenant id the guard works with. *)
Local Abbreviation guardTenant cls request :=
  (js_or (cls_get cls TENANT_ID_KEY) (Request.tenantId request)).

Lemma canActivate_public (cls : store) (context : ExecutionContext) :
  markedPublic context = true →
  canActivate cls context = Returned (getRequest context).
Proof. unfold canActivate, markedPublic. by intros ->. Qed.

Lemma canActivate_tenant_required (cls : store) (context : ExecutionContext) :
  markedPublic context = false →
  truthy (guardTenant cls (getRequest context)) = false →
  canActivate cls context = Thrown (UnauthorizedException HTTP_MESSAGES.TENANT_REQUIRED).
Proof. unfold canActivate, markedPublic. by intros -> ->. Qed.

Lemma canActivate_mismatch (cls : store) (context : ExecutionContext) (u : User.t) :
  markedPublic context = false →
  Request.user (getRequest context) = Some u →
  truthy (guardTenant cls (getRequest context)) = true →
  strict_eq_str (User.tenantId u) (guardTenant cls (getRequest context)) = false →
  canActivate cls context = Thrown (ForbiddenException HTTP_MESSAGES.TENANT_MISMATCH).
Proof. unfold canActivate, markedPublic. by intros -> -> -> ->. Qed.

(** After the middleware has run, the guard's tenant id is the resolved one. *)
Lemma guard_tenant_after_use (decode : string → outcome jsval) (uuid : string)
    (cls0 : store) (req0 : Request.t) (u : User.t) :
  truthy (TenantMiddleware.resolveTenantId decode req0) = true →
  guardTenant (TenantMiddleware.use decode uuid cls0 req0).1
    (Request.set_user (TenantMiddleware.use decode uuid cls0 req0).2 u)
  = TenantMiddleware.resolveTenantId decode req0.
Proof.
  intros Hres.
  destruct (use_writes_resolved decode uuid cls0 req0 Hres) as [Hcls _].
  rewrite Hcls. unfold js_or. by rewrite Hres.
Qed.

End TenantGuardFacts.

(** ** The guards in sequence *)

Section GuardPipeline.

Variable strategy : Request.t → JwtAuthGuard.PassportResult.

Lemma markedPublic_with_request (context : ExecutionContext) (request : Request.t) :
  markedPublic (with_request context request) = markedPublic context.
Proof. reflexivity. Qed.

Lemma jwt_authenticated (context : ExecutionContext) (u : User.t) :
  markedPublic context = false →
  strategy (getRequest context) = JwtAuthGuard.mkPassport None (Some u) →
  JwtAuthGuard.canActivate strategy context
  = Returned (Request.set_user (getRequest context) u).
Proof.
  unfold JwtAuthGuard.canActivate, markedPublic. by intros -> ->.
Qed.

Lemma jwt_public (context : ExecutionContext) :
  markedPublic context = true →
  JwtAuthGuard.canActivate strategy context = Returned (getRequest context).
Proof. unfold JwtAuthGuard.canActivate, markedPublic. by intros ->. Qed.

(** When the tenant guard throws for an authenticated request, that is the
    verdict of the whole sequence. *)
Lemma runGuards_tenant_guard_throws
    (cls : store) (context : ExecutionContext) (u : User.t) (e : exn) :
  markedPublic context = false →
  strategy (getRequest context) = JwtAuthGuard.mkPassport None (Some u) →
  TenantGuard.canActivate cls (with_request context (Request.set_user (getRequest context) u))
  = Thrown e →
  Pipeline.runGuards strategy cls context = Thrown e.
Proof.
  intros Hpub Hauth Hguard. unfold Pipeline.runGuards.
  by rewrite (jwt_authenticated _ _ Hpub Hauth), Hguard.
Qed.

End GuardPipeline.

(** A counterexample to tenant-match on public routes: the route is marked
    [@Public()], the request carries a principal of tenant [t1], the store
    holds tenant [t2]; the tenant guard returns [true] without comparing,
    and so does the whole guard sequence. *)
Lemma public_route_admits_tenant_mismatch :
  let u := User.mk "u1" "t1" (Some ["user"]) in
  let req := Request.mk {["x-tenant-id" := "t2"]} "/public/book/acme" "GET"
               "/public/book/acme" "10.0.0.1" (JStr "r1") (JStr "t2") (Some u) in
  let cls : store := {[TENANT_ID_KEY := JStr "t2"]} in
  let context := mkContext (Decorators.Public undecorated) undecorated req in
  truthy (js_or (cls_get cls TENANT_ID_KEY) (Request.tenantId req)) = true ∧
  strict_eq_str (User.tenantId u) (js_or (cls_get cls TENANT_ID_KEY) (Request.tenantId req)) = false ∧
  TenantGuard.canActivate cls context ≠ Thrown (ForbiddenException HTTP_MESSAGES.TENANT_MISMATCH) ∧
  TenantGuard.canActivate cls context = Returned req ∧
  ∀ strategy, Pipeline.runGuards strategy cls context = Returned req.
Proof.
  repeat split; try reflexivity. intros H. vm_compute in H. discriminate H.
Qed.

(** C2 (as the code has it): on every route not marked public, a request
    that carries a principal and has a tenant id in its context (from the
    store, else from the request) whose value is not the principal's tenant
    id is refused with [Forbidden: TENANT_MISMATCH]; this holds for the
    tenant guard alone and for the guard sequence after the middleware has
    resolved the tenant from whichever source. On a route marked public the
    tenant guard returns [true] without looking at tenant or principal. *)
Theorem tenant_mismatch_denied_unless_public :
  (∀ (cls : store) (context : ExecutionContext) (u : User.t),
     markedPublic context = false →
     Request.user (getRequest context) = Some u →
     truthy (js_or (cls_get cls TENANT_ID_KEY) (Request.tenantId (getRequest context))) = true →
     strict_eq_str (User.tenantId u)
       (js_or (cls_get cls TENANT_ID_KEY) (Request.tenantId (getRequest context))) = false →
     TenantGuard.canActivate cls context
     = Thrown (ForbiddenException HTTP_MESSAGES.TENANT_MISMATCH)) ∧
  (∀ decode uuid strategy (cls0 : store) (req0 : Request.t) handler class (u : User.t),
     let cls := (TenantMiddleware.use decode uuid cls0 req0).1 in
     let request := (TenantMiddleware.use decode uuid cls0 req0).2 in
     let context := mkContext handler class request in
     markedPublic context = false →
     strategy request = JwtAuthGuard.mkPassport None (Some u) →
     truthy (TenantMiddleware.resolveTenantId decode req0) = true →
     strict_eq_str (User.tenantId u) (TenantMiddleware.resolveTenantId decode req0) = false →
     Pipeline.runGuards strategy cls context
     = Thrown (ForbiddenException HTTP_MESSAGES.TENANT_MISMATCH)) ∧
  (∀ (cls : store) (context : ExecutionContext),
     markedPublic context = true →
     TenantGuard.canActivate cls context = Returned (getRequest context)).
Proof.
  split_and!.
  - intros cls context u. apply canActivate_mismatch.
  - intros decode uuid strategy cls0 req0 handler class u cls request context
      Hpub Hauth Hres Hneq.
    apply (runGuards_tenant_guard_throws strategy cls context u); [done | done |].
    apply (canActivate_mismatch _ _ u); [done | reflexivity | |].
    + cbn [getRequest with_request]. subst cls request context. cbn [getRequest].
      by rewrite guard_tenant_after_use.
    + cbn [getRequest with_request]. subst cls request context. cbn [getRequest].
      by rewrite guard_tenant_after_use.
  - apply canActivate_public.
Qed.

(** Scenario E on a protected route: principal of [t1], header says [t2];
    first at the guard, then through middleware and guard sequence. *)
Lemma tenant_mismatch_denied_unless_public_witness :
  let u := User.mk "u1" "t1" (Some ["admin"]) in
  let req := Request.mk {["x-tenant-id" := "t2"]} "/api/v1/users" "GET" "/api/v1/users"
               "10.0.0.1" (JStr "r1") JUndefined (Some u) in
  let cls : store := {[TENANT_ID_KEY := JStr "t2"]} in
  let decode := fun _ : string => Returned JNull in
  let strategy := fun _ : Request.t => JwtAuthGuard.mkPassport None (Some u) in
  TenantGuard.canActivate cls (mkContext undecorated undecorated req)
  = Thrown (ForbiddenException HTTP_MESSAGES.TENANT_MISMATCH) ∧
  Pipeline.runGuards strategy (TenantMiddleware.use decode "r2" ∅ req).1
    (mkContext undecorated undecorated (TenantMiddleware.use decode "r2" ∅ req).2)
  = Thrown (ForbiddenException HTTP_MESSAGES.TENANT_MISMATCH) ∧
  TenantGuard.canActivate cls (mkContext (Decorators.Public undecorated) undecorated req)
  = Returned req.
Proof.
  intros u req cls decode strategy. split_and!.
  - apply (proj1 tenant_mismatch_denied_unless_public cls
             (mkContext undecorated undecorated req) u); reflexivity.
  - apply (proj1 (proj2 tenant_mismatch_denied_unless_public) decode "r2" strategy ∅ req
             undecorated undecorated u); reflexivity.
  - apply (proj2 (proj2 tenant_mismatch_denied_unless_public) cls
             (mkContext (Decorators.Public undecorated) undecorated req)); reflexivity.
Defined.

(** C10: on a route not marked public, a request with no tenant id in the
    store and none attached to the request is refused by the tenant guard
    with [Unauthorized: TENANT_REQUIRED], whatever other metadata the route
    carries (roles, permissions, audit); for an authenticated request this
    is the verdict of the whole dispatch, and the handler is not run. *)
Theorem tenant_required_on_protected_routes (cls : store) (context : ExecutionContext) :
  markedPublic context = false →
  truthy (cls_get cls TENANT_ID_KEY) = false →
  truthy (Request.tenantId (getRequest context)) = false →
  TenantGuard.canActivate cls context
  = Thrown (UnauthorizedException HTTP_MESSAGES.TENANT_REQUIRED) ∧
  ∀ strategy logger isoNow (u : User.t) (handler : Request.t → outcome jsval),
    strategy (getRequest context) = JwtAuthGuard.mkPassport None (Some u) →
    Route.dispatch strategy logger isoNow cls context handler
    = Thrown (UnauthorizedException HTTP_MESSAGES.TENANT_REQUIRED).
Proof.
  intros Hpub Hcls Hreq.
  assert (Hnone : ∀ request, Request.tenantId request = Request.tenantId (getRequest context) →
            truthy (js_or (cls_get cls TENANT_ID_KEY) (Request.tenantId request)) = false).
  { intros request ->. unfold js_or. by rewrite Hcls. }
  split.
  - apply canActivate_tenant_required; [done|]. by apply Hnone.
  - intros strategy logger isoNow u handler Hauth. unfold Route.dispatch.
    rewrite (runGuards_tenant_guard_throws strategy cls context u
               (UnauthorizedException HTTP_MESSAGES.TENANT_REQUIRED)); [done..|].
    apply canActivate_tenant_required; [done|]. by apply Hnone.
Qed.

Lemma tenant_required_on_protected_routes_witness :
  let req := Request.mk {["authorization" := "Bearer abc"]} "/api/v1/users" "GET"
               "/api/v1/users" "10.0.0.1" (JStr "r1") JUndefined None in
  let context := mkContext (Decorators.Roles ["admin"] undecorated) undecorated req in
  TenantGuard.canActivate ∅ context
  = Thrown (UnauthorizedException HTTP_MESSAGES.TENANT_REQUIRED).
Proof.
  intros req context.
  apply (tenant_required_on_protected_routes ∅ context); reflexivity.
Defined.

(** ** Roles and permissions *)

Section RolesAndPermissions.

Import RolesGuard.

Lemma matchRoles_super_admin (requiredRoles userRoles : list string) :
  UserRole.SUPER_ADMIN ∈ userRoles → matchRoles requiredRoles (Some userRoles) = true.
Proof.
  intros Hin. unfold matchRoles.
  destruct userRoles as [|r rs]; [by apply elem_of_nil in Hin|].
  by rewrite bool_decide_eq_true_2.
Qed.

(** The tenant guard never reads the principal's roles. *)
Lemma tenant_guard_ignores_roles
    (cls : store) (handler class : Metadata) (req : Request.t) (u : User.t)
    (rs : option (list string)) :
  thrown (TenantGuard.canActivate cls
            (mkContext handler class (Request.set_user req (User.set_roles u rs))))
  = thrown (TenantGuard.canActivate cls (mkContext handler class (Request.set_user req u))).
Proof.
  unfold TenantGuard.canActivate. cbn [getHandler getClass getRequest].
  destruct (default false _); [done|].
  cbn [Request.tenantId Request.user Request.set_user User.tenantId User.set_roles].
  destruct (negb (truthy _)); [done|].
  by destruct (negb (strict_eq_str _ _)).
Qed.

(** A counterexample to the tenant-match denial of a super-admin: the
    route is marked [@Public()], the request carries a super-admin of tenant
    [t1], the store holds tenant [t2]. The tenant guard returns [true]
    without comparing, the role guard lets the super-admin through, and the
    guard sequence admits the request. *)
Lemma public_route_admits_super_admin_of_other_tenant :
  let root := User.mk "u0" "t1" (Some ["super_admin"]) in
  let req := Request.mk {["x-tenant-id" := "t2"]} "/public/book/acme" "GET"
               "/public/book/acme" "10.0.0.1" (JStr "r1") (JStr "t2") (Some root) in
  let cls : store := {[TENANT_ID_KEY := JStr "t2"]} in
  let context :=
    mkContext (Decorators.Roles ["admin"] (Decorators.Public undecorated)) undecorated req in
  RolesGuard.matchRoles ["admin"] (User.roles root) = true ∧
  truthy (js_or (cls_get cls TENANT_ID_KEY) (Request.tenantId req)) = true ∧
  strict_eq_str (User.tenantId root)
    (js_or (cls_get cls TENANT_ID_KEY) (Request.tenantId req)) = false ∧
  thrown (TenantGuard.canActivate cls context) = None ∧
  TenantGuard.canActivate cls context = Returned req ∧
  ∀ strategy, Pipeline.runGuards strategy cls context = Returned req.
Proof. repeat split. Qed.

(** C6 (as the code has it): a principal holding [super_admin] passes the
    role guard whatever role set the route requires (none, empty, one or
    several roles). The tenant guard never reads roles: what it throws is
    the same for every role set of the principal. So on every route not
    marked public a super-admin whose tenant id is not the tenant id of the
    context is refused with [Forbidden: TENANT_MISMATCH], by the tenant
    guard and by the guard sequence. On a route marked public the tenant
    guard returns [true] before any comparison, for a super-admin as for
    anyone. *)
Theorem super_admin_bypasses_roles_not_tenant :
  (∀ (context : ExecutionContext) (u : User.t) (userRoles : list string),
     Request.user (getRequest context) = Some u →
     User.roles u = Some userRoles →
     UserRole.SUPER_ADMIN ∈ userRoles →
     RolesGuard.canActivate context = Returned (getRequest context)) ∧
  (∀ (cls : store) (handler class : Metadata) (req : Request.t) (u : User.t)
     (rs : option (list string)),
     thrown (TenantGuard.canActivate cls
               (mkContext handler class (Request.set_user req (User.set_roles u rs))))
     = thrown (TenantGuard.canActivate cls
                 (mkContext handler class (Request.set_user req u)))) ∧
  (∀ (cls : store) (context : ExecutionContext) (u : User.t) (userRoles : list string),
     markedPublic context = false →
     Request.user (getRequest context) = Some u →
     User.roles u = Some userRoles →
     UserRole.SUPER_ADMIN ∈ userRoles →
     truthy (js_or (cls_get cls TENANT_ID_KEY) (Request.tenantId (getRequest context))) = true →
     strict_eq_str (User.tenantId u)
       (js_or (cls_get cls TENANT_ID_KEY) (Request.tenantId (getRequest context))) = false →
     TenantGuard.canActivate cls context
     = Thrown (ForbiddenException HTTP_MESSAGES.TENANT_MISMATCH)) ∧
  (∀ strategy (cls : store) (context : ExecutionContext) (u : User.t)
     (userRoles : list string),
     markedPublic context = false →
     strategy (getRequest context) = JwtAuthGuard.mkPassport None (Some u) →
     User.roles u = Some userRoles →
     UserRole.SUPER_ADMIN ∈ userRoles →
     truthy (js_or (cls_get cls TENANT_ID_KEY) (Request.tenantId (getRequest context))) = true →
     strict_eq_str (User.tenantId u)
       (js_or (cls_get cls TENANT_ID_KEY) (Request.tenantId (getRequest context))) = false →
     Pipeline.runGuards strategy cls context
     = Thrown (ForbiddenException HTTP_MESSAGES.TENANT_MISMATCH)) ∧
  (∀ (cls : store) (context : ExecutionContext),
     markedPublic context = true →
     TenantGuard.canActivate cls context = Returned (getRequest context)).
Proof.
  split_and!.
  - intros context u userRoles Huser Hroles Hsa. unfold canActivate.
    destruct (getAllAndOverride roles _) as [[|r required]|]; [done| |done].
    by rewrite Huser, Hroles, (matchRoles_super_admin _ _ Hsa).
  - apply tenant_guard_ignores_roles.
  - intros cls context u userRoles Hpub Huser _ _. by apply canActivate_mismatch.
  - intros strategy cls context u userRoles Hpub Hauth _ _ Htruthy Hneq.
    apply (runGuards_tenant_guard_throws strategy cls context u); [done | done |].
    by apply (canActivate_mismatch _ _ u).
  - apply canActivate_public.
Qed.

(** A super-admin of tenant [t1] on a protected route that requires [admin]
    or [user], against tenant [t2]: the role guard lets the request
    through, the tenant guard refuses it, as it refuses a plain user, and so
    does the guard sequence. *)
Lemma super_admin_bypasses_roles_not_tenant_witness :
  let plain := User.mk "u1" "t1" (Some ["user"]) in
  let root := User.set_roles plain (Some ["super_admin"]) in
  let req := Request.mk ∅ "/api/v1/users/7" "DELETE" "/api/v1/users/7" "10.0.0.1"
               (JStr "r1") JUndefined None in
  let handler := Decorators.Roles ["admin"; "user"] undecorated in
  let cls : store := {[TENANT_ID_KEY := JStr "t2"]} in
  let strategy := fun _ : Request.t => JwtAuthGuard.mkPassport None (Some root) in
  RolesGuard.canActivate (mkContext handler undecorated (Request.set_user req root))
  = Returned (Request.set_user req root) ∧
  TenantGuard.canActivate cls (mkContext handler undecorated (Request.set_user req root))
  = Thrown (ForbiddenException HTTP_MESSAGES.TENANT_MISMATCH) ∧
  Pipeline.runGuards strategy cls (mkContext handler undecorated req)
  = Thrown (ForbiddenException HTTP_MESSAGES.TENANT_MISMATCH) ∧
  TenantGuard.canActivate cls
    (mkContext (Decorators.Public handler) undecorated (Request.set_user req root))
  = Returned (Request.set_user req root).
Proof.
  intros plain root req handler cls strategy.
  assert (Hsa : UserRole.SUPER_ADMIN ∈ ["super_admin"]) by apply list_elem_of_here.
  split_and!.
  - apply (proj1 super_admin_bypasses_roles_not_tenant
             (mkContext handler undecorated (Request.set_user req root)) root ["super_admin"]);
      [reflexivity | reflexivity | exact Hsa].
  - apply (proj1 (proj2 (proj2 super_admin_bypasses_roles_not_tenant)) cls
             (mkContext handler undecorated (Request.set_user req root)) root ["super_admin"]);
      [reflexivity | reflexivity | reflexivity | exact Hsa | reflexivity | reflexivity].
  - apply (proj1 (proj2 (proj2 (proj2 super_admin_bypasses_roles_not_tenant))) strategy cls
             (mkContext handler undecorated req) root ["super_admin"]);
      [reflexivity | reflexivity | reflexivity | exact Hsa | reflexivity | reflexivity].
  - apply (proj2 (proj2 (proj2 (proj2 super_admin_bypasses_roles_not_tenant))) cls
             (mkContext (Decorators.Public handler) undecorated (Request.set_user req root)));
      reflexivity.
Defined.

(** A counterexample to permission enforcement (Scenario F): the handler
    is annotated [@Permissions('users:delete')], the authenticated
    principal holds only [viewer], tenants agree. Every guard returns
    [true] and the handler runs. *)
Lemma viewer_reaches_handler_requiring_users_delete :
  let u := User.mk "u1" "t1" (Some ["viewer"]) in
  let req := Request.mk {["authorization" := "Bearer abc"]} "/api/v1/users/7" "DELETE"
               "/api/v1/users/7" "10.0.0.1" (JStr "r1") (JStr "t1") None in
  let handlerMeta := Decorators.Permissions [Permission.USERS_DELETE] undecorated in
  let context := mkContext handlerMeta undecorated req in
  let cls : store := {[TENANT_ID_KEY := JStr "t1"]} in
  let strategy := fun _ : Request.t => JwtAuthGuard.mkPassport None (Some u) in
  UserEntity.hasPermission u Permission.USERS_DELETE = false ∧
  Pipeline.runGuards strategy cls context = Returned (Request.set_user req u) ∧
  thrown (Pipeline.runGuards strategy cls context) = None ∧
  Route.dispatch strategy (fun _ => None) "2025-01-01T00:00:00.000Z" cls context
    (fun _ => Returned (JStr "deleted")) = Returned (JStr "deleted").
Proof. repeat split. Qed.

(** C7 (as the code has it): [@Permissions] only records the required
    permissions as route metadata. No guard reads that metadata: the verdict
    of the guard sequence and the outcome of the dispatch are the same
    whatever permission sets are attached to handler and class. The
    entity's [hasPermission] answers [false] for every permission and is
    not consulted by any guard. *)
Theorem permissions_metadata_not_enforced :
  (∀ ps m, permissions (Decorators.Permissions ps m) = Some ps ∧
           isPublic (Decorators.Permissions ps m) = isPublic m ∧
           roles (Decorators.Permissions ps m) = roles m ∧
           audit (Decorators.Permissions ps m) = audit m) ∧
  (∀ strategy (cls : store) handler class (req : Request.t) psh psc,
     Pipeline.runGuards strategy cls
       (mkContext (set_permissions handler psh) (set_permissions class psc) req)
     = Pipeline.runGuards strategy cls (mkContext handler class req)) ∧
  (∀ strategy logger isoNow (cls : store) handler class (req : Request.t) psh psc run,
     Route.dispatch strategy logger isoNow cls
       (mkContext (set_permissions handler psh) (set_permissions class psc) req) run
     = Route.dispatch strategy logger isoNow cls (mkContext handler class req) run) ∧
  (∀ (E : Type) (this : E) permission, UserEntity.hasPermission this permission = false).
Proof.
  split_and!; try done.
Qed.

End RolesAndPermissions.

(** ** Soft delete *)

Section SoftDeleteFacts.

Import PrismaService.

Variable now : Z.

Lemma action_is_true (p : Params) (a : string) : action p = a → action_is p a = true.
Proof. intros H. unfold action_is. by rewrite bool_decide_eq_true. Qed.

Lemma action_is_false (p : Params) (a : string) : action p ≠ a → action_is p a = false.
Proof. intros H. unfold action_is. by rewrite bool_decide_eq_false. Qed.

Lemma softDeleteWrites_delete (p : Params) (a : Args) :
  action p = "delete" → args p = Some a →
  softDeleteWrites now p
  = Next (set_data (set_action p "update") {["deletedAt" := JDate now]}).
Proof.
  intros Ha Hargs. unfold softDeleteWrites. rewrite (action_is_true p "delete" Ha).
  cbn [set_action args]. rewrite Hargs. by rewrite action_is_false.
Qed.

Lemma softDeleteWrites_deleteMany (p : Params) (a : Args) :
  action p = "deleteMany" → args p = Some a →
  softDeleteWrites now p
  = Next (set_data (set_action p "updateMany")
            (<["deletedAt" := JDate now]> (default ∅ (args_data a)))).
Proof.
  intros Ha Hargs. unfold softDeleteWrites.
  rewrite (action_is_false p "delete") by (rewrite Ha; discriminate).
  rewrite (action_is_true p "deleteMany" Ha). cbn [set_action args]. rewrite Hargs.
  destruct (args_data a) as [d|]; cbn [default from_option id]; [done|].
  by rewrite insert_empty.
Qed.

Lemma softDeleteWrites_other (p : Params) :
  action p ≠ "delete" → action p ≠ "deleteMany" → softDeleteWrites now p = Next p.
Proof.
  intros H1 H2. unfold softDeleteWrites.
  by rewrite (action_is_false p "delete" H1), (action_is_false p "deleteMany" H2).
Qed.

(** A [delete] or [deleteMany] called without an argument. *)
Lemma softDeleteWrites_undefined_args (p : Params) :
  action p = "delete" ∨ action p = "deleteMany" → args p = None →
  ∃ msg, softDeleteWrites now p = Throw (TypeError msg).
Proof.
  intros [Ha|Ha] Hargs; unfold softDeleteWrites.
  - rewrite (action_is_true p "delete" Ha). cbn [set_action args]. rewrite Hargs.
    unfold setting_of_undefined. eauto.
  - rewrite (action_is_false p "delete") by (rewrite Ha; discriminate).
    rewrite (action_is_true p "deleteMany" Ha). cbn [set_action args]. rewrite Hargs.
    unfold reading_of_undefined. eauto.
Qed.

Lemma softDeleteReads_single (p : Params) (a : Args) (w : obj) :
  action p = "findUnique" ∨ action p = "findFirst" →
  args p = Some a → args_where a = Some w →
  softDeleteReads p = Next (set_where (set_action p "findFirst") (<["deletedAt" := JNull]> w)).
Proof.
  intros Ha Hargs Hw. unfold softDeleteReads.
  assert (Hor : action_is p "findUnique" || action_is p "findFirst" = true).
  { destruct Ha as [Ha|Ha]; rewrite (action_is_true _ _ Ha); [done | by rewrite orb_true_r]. }
  rewrite Hor. cbn [set_action args]. rewrite Hargs, Hw.
  by rewrite action_is_false.
Qed.

Lemma softDeleteReads_single_without_where (p : Params) (a : Args) :
  action p = "findUnique" ∨ action p = "findFirst" →
  args p = Some a → args_where a = None →
  ∃ msg, softDeleteReads p = Throw (TypeError msg).
Proof.
  intros Ha Hargs Hw. unfold softDeleteReads.
  assert (Hor : action_is p "findUnique" || action_is p "findFirst" = true).
  { destruct Ha as [Ha|Ha]; rewrite (action_is_true _ _ Ha); [done | by rewrite orb_true_r]. }
  rewrite Hor. cbn [set_action args]. rewrite Hargs, Hw.
  unfold setting_of_undefined. eauto.
Qed.

Lemma softDeleteReads_findMany (p : Params) (a : Args) :
  action p = "findMany" → args p = Some a →
  softDeleteReads p =
    Next (match args_where a with
          | Some w =>
            match getProp w "deletedAt" with
            | JUndefined => set_where p (<["deletedAt" := JNull]> w)
            | _ => p
            end
          | None => set_where p {["deletedAt" := JNull]}
          end).
Proof.
  intros Ha Hargs. unfold softDeleteReads.
  rewrite !action_is_false by (rewrite Ha; discriminate). cbn [orb].
  rewrite (action_is_true p "findMany" Ha), Hargs.
  destruct (args_where a) as [w|]; [|done].
  by destruct (getProp w "deletedAt").
Qed.

(** A read called without an argument. *)
Lemma softDeleteReads_undefined_args (p : Params) :
  action p = "findUnique" ∨ action p = "findFirst" ∨ action p = "findMany" →
  args p = None →
  ∃ msg, softDeleteReads p = Throw (TypeError msg).
Proof.
  intros Ha Hargs. unfold softDeleteReads.
  destruct (action_is p "findUnique" || action_is p "findFirst") eqn:Hor.
  - cbn [set_action args]. rewrite Hargs. unfold reading_of_undefined. eauto.
  - apply orb_false_elim in Hor as [H1 H2].
    destruct Ha as [Ha|[Ha|Ha]];
      [by rewrite (action_is_true _ _ Ha) in H1 | by rewrite (action_is_true _ _ Ha) in H2 |].
    rewrite (action_is_true p "findMany" Ha), Hargs. unfold reading_of_undefined. eauto.
Qed.

Lemma softDeleteReads_other (p : Params) :
  action p ≠ "findUnique" → action p ≠ "findFirst" → action p ≠ "findMany" →
  softDeleteReads p = Next p.
Proof.
  intros H1 H2 H3. unfold softDeleteReads.
  rewrite (action_is_false p _ H1), (action_is_false p _ H2). cbn [orb].
  by rewrite (action_is_false p _ H3).
Qed.

End SoftDeleteFacts.

Section SoftDeleteGateway.

Import PrismaService.

Variable now : Z.
Variable cls : store.

(** Tenant isolation never touches action or model. *)
Lemma tenantIsolation_action (p p1 : Params) :
  tenantIsolation cls p = Next p1 → action p1 = action p ∧ model p1 = model p.
Proof.
  unfold tenantIsolation, scope_where, scope_data, scope_create. intros H.
  destruct (args p) as [a|] eqn:Hargs; cbn [set_where args] in H; rewrite ?Hargs in H;
    repeat match type of H with
           | context [if ?b then _ else _] => destruct b
           end;
    by (discriminate H || injection H as <-).
Qed.

(** Called without an argument, an operation is handed on as it is or
    refused with a [TypeError]. *)
Lemma tenantIsolation_undefined_args (p : Params) :
  args p = None →
  tenantIsolation cls p = Next p ∨ ∃ msg, tenantIsolation cls p = Throw (TypeError msg).
Proof.
  intros Hargs. unfold tenantIsolation, scope_where, scope_data, scope_create.
  rewrite Hargs. unfold reading_of_undefined.
  repeat match goal with
         | |- context [if ?b then _ else _] => destruct b
         end; eauto.
Qed.

(** What tenant isolation leaves alone when [params.args] is an object: the
    action, the model, the data of everything but a create, every condition
    other than [tenantId], and the presence of a [where]. *)
Lemma tenantIsolation_frame (p : Params) (a : Args) :
  args p = Some a →
  ∃ p1 a1, tenantIsolation cls p = Next p1 ∧ args p1 = Some a1 ∧
    action p1 = action p ∧ model p1 = model p ∧
    (action p ≠ "create" → args_data a1 = args_data a) ∧
    (∀ k, k ≠ "tenantId" →
       default ∅ (args_where a1) !! k = default ∅ (args_where a) !! k) ∧
    (is_Some (args_where a) → is_Some (args_where a1)).
Proof.
  intros Hargs. unfold tenantIsolation, scope_where, scope_data, scope_create.
  rewrite Hargs. cbn [set_where args]. rewrite ?Hargs.
  repeat match goal with
         | |- context [if ?b then _ else _] => destruct b eqn:?
         end;
    (eexists _, _; split; [reflexivity|]);
    unfold set_where, set_data, set_create; cbn [action model args]; rewrite ?Hargs;
    (split; [reflexivity|]);
    cbn [args_data args_where args_create];
    (split_and!; [done | done | | | ]);
    try done; try (intros _; by eauto).
  all: try (intros k Hk; unfold spread_with; cbn [default from_option id];
            by rewrite lookup_insert_ne).
  intros Hnc. exfalso. apply Hnc.
  match goal with H : action_is p "create" = true |- _ => by apply bool_decide_eq_true in H end.
Qed.

(** The gateway with soft delete enabled: tenant isolation, query logging,
    then the two soft-delete middlewares. *)
Lemma run_soft_delete_gateway (p p1 : Params) :
  tenantIsolation cls p = Next p1 →
  run (enableSoftDelete now (constructed cls)) p =
    match softDeleteWrites now p1 with
    | Next p2 => softDeleteReads p2
    | Throw e => Throw e
    end.
Proof.
  intros H. cbn [enableSoftDelete constructed app run]. rewrite H. cbn [queryLogging].
  destruct (softDeleteWrites now p1) as [p2|e]; [|done].
  by destruct (softDeleteReads p2).
Qed.

(** What tenant isolation throws is what the gateway throws. *)
Lemma run_soft_delete_gateway_throws (p : Params) (e : exn) :
  tenantIsolation cls p = Throw e →
  run (enableSoftDelete now (constructed cls)) p = Throw e.
Proof. intros H. cbn [enableSoftDelete constructed app run]. by rewrite H. Qed.

(** Called without an argument, the five operations soft delete rewrites
    never get past the middlewares. *)
Lemma run_soft_delete_gateway_undefined_args (p : Params) :
  args p = None →
  action p ∈ ["delete"; "deleteMany"; "findUnique"; "findFirst"; "findMany"] →
  ∃ msg, run (enableSoftDelete now (constructed cls)) p = Throw (TypeError msg).
Proof.
  intros Hargs Ha.
  destruct (tenantIsolation_undefined_args p Hargs) as [Hti|[msg Hti]].
  - rewrite (run_soft_delete_gateway p p Hti).
    assert (Hcases : (action p = "delete" ∨ action p = "deleteMany") ∨
                     (action p = "findUnique" ∨ action p = "findFirst" ∨ action p = "findMany"))
      by (set_unfold; tauto).
    destruct Hcases as [Hw|Hr].
    + destruct (softDeleteWrites_undefined_args now p Hw Hargs) as [msg ->]. eauto.
    + rewrite softDeleteWrites_other
        by (destruct Hr as [H|[H|H]]; rewrite H; discriminate).
      apply softDeleteReads_undefined_args; done.
  - exists msg. by apply run_soft_delete_gateway_throws.
Qed.

End SoftDeleteGateway.

(** A counterexample to the opt-out on single-record reads: the caller of
    [findFirst] asks for deleted records ([deletedAt: { not: null }]); the
    query reaches the engine with [deletedAt: null] in place of the caller's
    condition. *)
Lemma findFirst_overrides_deletedAt_condition :
  let asked := JObject {["not" := JNull]} in
  let p := PrismaService.mkParams (Some "User") "findFirst"
             (Some (PrismaService.mkArgs
                      (Some {["email" := JStr "a@b.c"; "deletedAt" := asked]}) None None)) in
  let gateway := PrismaService.enableSoftDelete 0 (PrismaService.constructed ∅) in
  (∃ a, PrismaService.args p = Some a ∧
     getProp (default ∅ (PrismaService.args_where a)) "deletedAt" = asked) ∧
  asked ≠ JUndefined ∧
  PrismaService.run gateway p
  = PrismaService.Next
      (PrismaService.mkParams (Some "User") "findFirst"
         (Some (PrismaService.mkArgs
                  (Some {["email" := JStr "a@b.c"; "deletedAt" := JNull]}) None None))) ∧
  ∀ p' a', PrismaService.run gateway p = PrismaService.Next p' →
    PrismaService.args p' = Some a' →
    getProp (default ∅ (PrismaService.args_where a')) "deletedAt" ≠ asked.
Proof.
  assert (Hrun : PrismaService.run
            (PrismaService.enableSoftDelete 0 (PrismaService.constructed ∅))
            (PrismaService.mkParams (Some "User") "findFirst"
               (Some (PrismaService.mkArgs
                  (Some {["email" := JStr "a@b.c"; "deletedAt" := JObject {["not" := JNull]}]})
                  None None)))
          = PrismaService.Next
              (PrismaService.mkParams (Some "User") "findFirst"
                 (Some (PrismaService.mkArgs
                    (Some {["email" := JStr "a@b.c"; "deletedAt" := JNull]})
                    None None)))) by (vm_compute; reflexivity).
  intros asked p gateway. split_and!; [ | discriminate | exact Hrun |].
  - eexists. split; reflexivity.
  - intros p' a' Hp' Ha'. pose proof (eq_trans (eq_sym Hrun) Hp') as Heq.
    injection Heq as <-. injection Ha' as <-. vm_compute. discriminate.
Qed.

(** C8, on the code: with soft delete enabled on the gateway, an operation
    called with an argument object is rewritten as follows, every condition
    of the caller's [where] other than [tenantId] and [deletedAt] being
    kept:
    - [delete] reaches the engine as [update] with data [{deletedAt: now}];
    - [deleteMany] reaches it as [updateMany] with [deletedAt: now] set in
      its data;
    - [findMany] reaches it with [deletedAt: null] in its [where], unless
      the caller's [where] already carries a [deletedAt] condition, which
      is then kept;
    - [findUnique] and [findFirst] that carry a [where] reach it as
      [findFirst] with [deletedAt: null] in the [where], in place of any
      [deletedAt] condition of the caller: single-record reads have no
      opt-out.
    Called without an argument, none of these five operations reaches the
    engine: a middleware throws a [TypeError]. *)
Theorem soft_delete_rewrites (now : Z) (cls : store) (p : PrismaService.Params) :
  let gateway := PrismaService.enableSoftDelete now (PrismaService.constructed cls) in
  (∀ a, PrismaService.args p = Some a →
     let asked := getProp (default ∅ (PrismaService.args_where a)) "deletedAt" in
     (PrismaService.action p = "delete" →
        ∃ p' a', PrismaService.run gateway p = PrismaService.Next p' ∧
          PrismaService.args p' = Some a' ∧
          PrismaService.action p' = "update" ∧
          PrismaService.model p' = PrismaService.model p ∧
          PrismaService.args_data a' = Some {["deletedAt" := JDate now]} ∧
          ∀ k, k ≠ "tenantId" →
            default ∅ (PrismaService.args_where a') !! k
            = default ∅ (PrismaService.args_where a) !! k) ∧
     (PrismaService.action p = "deleteMany" →
        ∃ p' a' d, PrismaService.run gateway p = PrismaService.Next p' ∧
          PrismaService.args p' = Some a' ∧
          PrismaService.action p' = "updateMany" ∧
          PrismaService.model p' = PrismaService.model p ∧
          PrismaService.args_data a' = Some d ∧
          d !! "deletedAt" = Some (JDate now) ∧
          (∀ k, k ≠ "deletedAt" → d !! k = default ∅ (PrismaService.args_data a) !! k) ∧
          ∀ k, k ≠ "tenantId" →
            default ∅ (PrismaService.args_where a') !! k
            = default ∅ (PrismaService.args_where a) !! k) ∧
     (PrismaService.action p = "findMany" →
        ∃ p' a' w', PrismaService.run gateway p = PrismaService.Next p' ∧
          PrismaService.args p' = Some a' ∧
          PrismaService.action p' = "findMany" ∧
          PrismaService.model p' = PrismaService.model p ∧
          PrismaService.args_where a' = Some w' ∧
          getProp w' "deletedAt" = match asked with JUndefined => JNull | v => v end ∧
          ∀ k, k ≠ "deletedAt" → k ≠ "tenantId" →
            w' !! k = default ∅ (PrismaService.args_where a) !! k) ∧
     (PrismaService.action p = "findUnique" ∨ PrismaService.action p = "findFirst" →
      is_Some (PrismaService.args_where a) →
        ∃ p' a' w', PrismaService.run gateway p = PrismaService.Next p' ∧
          PrismaService.args p' = Some a' ∧
          PrismaService.action p' = "findFirst" ∧
          PrismaService.model p' = PrismaService.model p ∧
          PrismaService.args_where a' = Some w' ∧
          w' !! "deletedAt" = Some JNull ∧
          ∀ k, k ≠ "deletedAt" → k ≠ "tenantId" →
            w' !! k = default ∅ (PrismaService.args_where a) !! k)) ∧
  (PrismaService.args p = None →
   PrismaService.action p ∈ ["delete"; "deleteMany"; "findUnique"; "findFirst"; "findMany"] →
   ∃ msg, PrismaService.run gateway p = PrismaService.Throw (TypeError msg) ∧
     ∀ (R : Type) (engine : PrismaService.Params → outcome R),
       PrismaService.execute engine gateway p = Thrown (TypeError msg)).
Proof.
  intros gateway. subst gateway. split.
  - intros a Hargs asked.
    destruct (tenantIsolation_frame cls p a Hargs)
      as (p1 & a1 & Hti & Hargs1 & Ha & Hm & Hd & Hw & Hs).
    rewrite (run_soft_delete_gateway now cls p p1 Hti).
    split_and!.
    + intros Hact.
      rewrite (softDeleteWrites_delete now p1 a1) by congruence.
      rewrite softDeleteReads_other by (cbn; discriminate).
      eexists _, _. split; [reflexivity|].
      unfold PrismaService.set_data, PrismaService.set_action.
      cbn [PrismaService.args PrismaService.action PrismaService.model]. rewrite Hargs1.
      split; [reflexivity|]. cbn. split_and!; [done | done | done | exact Hw].
    + intros Hact.
      rewrite (softDeleteWrites_deleteMany now p1 a1) by congruence.
      rewrite softDeleteReads_other by (cbn; discriminate).
      eexists _, _, _. split; [reflexivity|].
      unfold PrismaService.set_data, PrismaService.set_action.
      cbn [PrismaService.args PrismaService.action PrismaService.model]. rewrite Hargs1.
      split; [reflexivity|]. cbn.
      split_and!; [done | done | reflexivity | by rewrite lookup_insert_eq | | exact Hw].
      intros k Hk. rewrite lookup_insert_ne by done.
      rewrite Hd; [done | rewrite Hact; discriminate].
    + intros Hact.
      rewrite softDeleteWrites_other by (rewrite Ha, Hact; discriminate).
      rewrite (softDeleteReads_findMany p1 a1) by congruence.
      pose proof (Hw "deletedAt" ltac:(discriminate)) as Hdel.
      destruct (PrismaService.args_where a1) as [w1|] eqn:Hw1.
      * assert (Hasked : getProp w1 "deletedAt" = asked).
        { subst asked. unfold getProp. cbn [default from_option id] in Hdel. by rewrite Hdel. }
        cbn [default from_option id] in Hw.
        destruct (getProp w1 "deletedAt") eqn:Hg; rewrite <- Hasked.
        1: { eexists _, _, _. split; [reflexivity|].
             unfold PrismaService.set_where.
             cbn [PrismaService.args PrismaService.action PrismaService.model].
             rewrite Hargs1. split; [reflexivity|]. cbn.
             split_and!; [congruence | done | reflexivity | |].
             - unfold getProp. by rewrite lookup_insert_eq.
             - intros k Hk Hk'. rewrite lookup_insert_ne by done. by apply Hw. }
        all: eexists _, _, _; (split; [reflexivity|]);
          split_and!; [exact Hargs1 | congruence | done | exact Hw1 | exact Hg |];
          intros k Hk Hk'; by apply Hw.
      * assert (Hasked : asked = JUndefined).
        { subst asked. unfold getProp. rewrite <- Hdel. cbn [default from_option id].
          by rewrite lookup_empty. }
        rewrite Hasked. eexists _, _, _. split; [reflexivity|].
        unfold PrismaService.set_where.
        cbn [PrismaService.args PrismaService.action PrismaService.model].
        rewrite Hargs1. split; [reflexivity|]. cbn.
        split_and!; [congruence | done | reflexivity | |].
        -- unfold getProp. by rewrite lookup_singleton_eq.
        -- intros k Hk Hk'. rewrite lookup_singleton_ne by done.
           rewrite <- (Hw k Hk'). cbn [default from_option id]. by rewrite lookup_empty.
    + intros Hact Hsome.
      destruct (Hs Hsome) as [w1 Hw1].
      rewrite softDeleteWrites_other by (destruct Hact as [H|H]; rewrite Ha, H; discriminate).
      rewrite (softDeleteReads_single p1 a1 w1) by (rewrite ?Ha; done).
      eexists _, _, _. split; [reflexivity|].
      unfold PrismaService.set_where, PrismaService.set_action.
      cbn [PrismaService.args PrismaService.action PrismaService.model]. rewrite Hargs1.
      split; [reflexivity|]. cbn.
      split_and!; [done | done | reflexivity | by rewrite lookup_insert_eq |].
      intros k Hk Hk'. rewrite lookup_insert_ne by done.
      specialize (Hw k Hk'). rewrite Hw1 in Hw. exact Hw.
  - intros Hargs Ha.
    destruct (run_soft_delete_gateway_undefined_args now cls p Hargs Ha) as [msg Hmsg].
    exists msg. split; [exact Hmsg|]. intros R engine.
    unfold PrismaService.execute. by rewrite Hmsg.
Qed.

(** A [delete], a [deleteMany] and a [findMany] on [User] for tenant [t1];
    a [findFirst] that asks for deleted records; a [findMany] called
    without an argument. *)
Lemma soft_delete_rewrites_witness :
  let cls : store := {[TENANT_ID_KEY := JStr "t1"]} in
  let gateway := PrismaService.enableSoftDelete 1700000000000 (PrismaService.constructed cls) in
  let byId := PrismaService.mkArgs (Some {["id" := JStr "u7"]}) None None in
  let deleted :=
    PrismaService.mkArgs
      (Some {["email" := JStr "a@b.c"; "deletedAt" := JObject {["not" := JNull]}]})
      None None in
  (∃ p' a', PrismaService.run gateway (PrismaService.mkParams (Some "User") "delete" (Some byId))
            = PrismaService.Next p' ∧
     PrismaService.args p' = Some a' ∧
     PrismaService.action p' = "update" ∧
     PrismaService.model p' = Some "User" ∧
     PrismaService.args_data a' = Some {["deletedAt" := JDate 1700000000000]} ∧
     ∀ k, k ≠ "tenantId" →
       default ∅ (PrismaService.args_where a') !! k = ({["id" := JStr "u7"]} : obj) !! k) ∧
  (∃ p' a' d,
     PrismaService.run gateway (PrismaService.mkParams (Some "User") "deleteMany" (Some byId))
     = PrismaService.Next p' ∧
     PrismaService.args p' = Some a' ∧
     PrismaService.action p' = "updateMany" ∧
     PrismaService.model p' = Some "User" ∧
     PrismaService.args_data a' = Some d ∧
     d !! "deletedAt" = Some (JDate 1700000000000) ∧
     (∀ k, k ≠ "deletedAt" → d !! k = (∅ : obj) !! k) ∧
     ∀ k, k ≠ "tenantId" →
       default ∅ (PrismaService.args_where a') !! k = ({["id" := JStr "u7"]} : obj) !! k) ∧
  (∃ p' a' w',
     PrismaService.run gateway (PrismaService.mkParams (Some "User") "findMany" (Some byId))
     = PrismaService.Next p' ∧
     PrismaService.args p' = Some a' ∧
     PrismaService.action p' = "findMany" ∧
     PrismaService.model p' = Some "User" ∧
     PrismaService.args_where a' = Some w' ∧
     getProp w' "deletedAt" = JNull ∧
     ∀ k, k ≠ "deletedAt" → k ≠ "tenantId" → w' !! k = ({["id" := JStr "u7"]} : obj) !! k) ∧
  (∃ p' a' w',
     PrismaService.run gateway (PrismaService.mkParams (Some "User") "findFirst" (Some deleted))
     = PrismaService.Next p' ∧
     PrismaService.args p' = Some a' ∧
     PrismaService.action p' = "findFirst" ∧
     PrismaService.model p' = Some "User" ∧
     PrismaService.args_where a' = Some w' ∧
     w' !! "deletedAt" = Some JNull ∧
     ∀ k, k ≠ "deletedAt" → k ≠ "tenantId" →
       w' !! k = ({["email" := JStr "a@b.c"; "deletedAt" := JObject {["not" := JNull]}]} : obj) !! k) ∧
  (∃ msg, PrismaService.run gateway (PrismaService.mkParams (Some "User") "findMany" None)
          = PrismaService.Throw (TypeError msg) ∧
     ∀ (R : Type) (engine : PrismaService.Params → outcome R),
       PrismaService.execute engine gateway (PrismaService.mkParams (Some "User") "findMany" None)
       = Thrown (TypeError msg)).
Proof.
  intros cls gateway byId deleted. split_and!.
  - apply (proj1 (proj1 (soft_delete_rewrites 1700000000000 cls
                    (PrismaService.mkParams (Some "User") "delete" (Some byId)))
                    byId eq_refl)).
    reflexivity.
  - apply (proj1 (proj2 (proj1 (soft_delete_rewrites 1700000000000 cls
                    (PrismaService.mkParams (Some "User") "deleteMany" (Some byId)))
                    byId eq_refl))).
    reflexivity.
  - apply (proj1 (proj2 (proj2 (proj1 (soft_delete_rewrites 1700000000000 cls
                    (PrismaService.mkParams (Some "User") "findMany" (Some byId)))
                    byId eq_refl)))).
    reflexivity.
  - apply (proj2 (proj2 (proj2 (proj1 (soft_delete_rewrites 1700000000000 cls
                    (PrismaService.mkParams (Some "User") "findFirst" (Some deleted)))
                    deleted eq_refl)))).
    + right. reflexivity.
    + simpl. eauto.
  - apply (proj2 (soft_delete_rewrites 1700000000000 cls
                    (PrismaService.mkParams (Some "User") "findMany" None))).
    + reflexivity.
    + apply (bool_decide_unpack _). vm_compute. exact I.
Defined.

(** ** The audit interceptor *)

Section AuditFacts.

Import AuditInterceptor.

Lemma tap_quiet {A : Type} (next : A → option exn) (error : exn → option exn)
    (source : outcome A) :
  (∀ value, source = Returned value → next value = None) →
  (∀ err, source = Thrown err → error err = None) →
  Rx.tap next error source = source.
Proof.
  intros Hnext Herror. destruct source as [value|err]; simpl.
  - by rewrite Hnext.
  - by rewrite Herror.
Qed.

Lemma intercept_unaudited logger isoNow (context : ExecutionContext) (handle : outcome jsval) :
  audit (getHandler context) = None → intercept logger isoNow context handle = handle.
Proof. unfold intercept, Reflector.get. by intros ->. Qed.

End AuditFacts.

(** A counterexample to independence from the audit emission. The handler
    of an audited route succeeds with a result, the logger call that emits
    the audit record throws: the caller gets that exception, not the
    result. Likewise, when the handler fails by throwing [undefined],
    building the record throws a [TypeError], which the caller gets in
    place of the handler's error. *)
Lemma audit_failure_replaces_outcome :
  let req := Request.mk ∅ "/api/v1/users/7" "DELETE" "/api/v1/users/7" "10.0.0.1"
               (JStr "r1") (JStr "t1") (Some (User.mk "u1" "t1" (Some ["admin"]))) in
  let context :=
    mkContext (Decorators.Audit (mkAuditOptions "DELETE" "User" None) undecorated)
      undecorated req in
  let sinkDown := Raised (JStr "log sink unavailable") in
  let failing := fun _ : AuditInterceptor.LogCall => Some sinkDown in
  let quiet := fun _ : AuditInterceptor.LogCall => @None exn in
  AuditInterceptor.intercept failing "2025-01-01T00:00:00.000Z" context
    (Returned (JStr "deleted")) = Thrown sinkDown ∧
  AuditInterceptor.intercept failing "2025-01-01T00:00:00.000Z" context
    (Returned (JStr "deleted")) ≠ Returned (JStr "deleted") ∧
  AuditInterceptor.intercept quiet "2025-01-01T00:00:00.000Z" context
    (Thrown (Raised JUndefined)) ≠ Thrown (Raised JUndefined).
Proof. repeat split; discriminate. Qed.

(** C9 (as the code has it): on a route without [@Audit] the interceptor
    hands the handler's outcome through. On an audited route the outcome
    delivered to the caller is the handler's, result or error unchanged,
    whenever the audit callback itself returns: the logger call does not
    throw and, for a failed handler, the error's [message] can be read. The
    callback is not shielded: what the logger throws on a successful
    handler is delivered in place of the result. *)
Theorem audit_keeps_outcome_when_emission_returns
    (logger : AuditInterceptor.LogCall → option exn) (isoNow : string)
    (context : ExecutionContext) (handle : outcome jsval) :
  ((∀ call, logger call = None) →
   (∀ err, handle = Thrown err → ∃ msg, AuditInterceptor.message err = Returned msg) →
   AuditInterceptor.intercept logger isoNow context handle = handle) ∧
  (∀ options result thrown,
     audit (getHandler context) = Some options →
     handle = Returned result →
     logger (AuditInterceptor.LoggerLog "Audit log created"
               (AuditInterceptor.buildAuditData isoNow options (getRequest context)))
     = Some thrown →
     AuditInterceptor.intercept logger isoNow context handle = Thrown thrown).
Proof.
  split.
  - intros Hquiet Hmsg. unfold AuditInterceptor.intercept, Reflector.get.
    destruct (audit (getHandler context)) as [options|]; [|done].
    apply tap_quiet.
    + intros value _. apply Hquiet.
    + intros err Herr. destruct (Hmsg err Herr) as [msg ->]. apply Hquiet.
  - intros options result thrown Haudit -> Hthrows.
    unfold AuditInterceptor.intercept, Reflector.get. rewrite Haudit.
    cbn [Rx.tap]. by rewrite Hthrows.
Qed.

(** An audited delete whose handler fails with [Forbidden] while the
    logger works; and one whose handler succeeds while the logger throws. *)
Lemma audit_keeps_outcome_when_emission_returns_witness :
  let req := Request.mk ∅ "/api/v1/users/7" "DELETE" "/api/v1/users/7" "10.0.0.1"
               (JStr "r1") (JStr "t1") (Some (User.mk "u1" "t1" (Some ["admin"]))) in
  let options := mkAuditOptions "DELETE" "User" None in
  let context := mkContext (Decorators.Audit options undecorated) undecorated req in
  let failed : outcome jsval := Thrown (ForbiddenException "Access forbidden") in
  let sinkDown := Raised (JStr "log sink unavailable") in
  AuditInterceptor.intercept (fun _ => None) "2025-01-01T00:00:00.000Z" context failed = failed ∧
  AuditInterceptor.intercept (fun _ => Some sinkDown) "2025-01-01T00:00:00.000Z" context
    (Returned (JStr "deleted")) = Thrown sinkDown.
Proof.
  intros req options context failed sinkDown. split.
  - apply (proj1 (audit_keeps_outcome_when_emission_returns (fun _ => None)
                    "2025-01-01T00:00:00.000Z" context failed)).
    + reflexivity.
    + intros err [= <-]. simpl. eauto.
  - apply (proj2 (audit_keeps_outcome_when_emission_returns (fun _ => Some sinkDown)
                    "2025-01-01T00:00:00.000Z" context (Returned (JStr "deleted")))
             options (JStr "deleted") sinkDown); reflexivity.
Defined.

(** * Further properties of the code *)

(** ** More on the tenant middleware *)

Section TenantMiddlewareFacts.

Import TenantMiddleware.

Variable decode : string → outcome jsval.
Variable uuid : string.

(** A split with at least two parts starts with its first part and a
    separator. *)
Lemma split_second (sep : ascii) (s t : string) (ps : list string) :
  Str.split sep s = t :: ps → ps ≠ [] →
  ∃ r, s = t ++ String sep r ∧ Str.split sep r = ps.
Proof.
  revert t ps. induction s as [|c s IH]; intros t ps; simpl.
  - intros [= <- <-] Hps. done.
  - destruct (Ascii.eqb c sep) eqn:Hc.
    + apply Ascii.eqb_eq in Hc as ->. intros [= <- <-] _. by exists s.
    + destruct (Str.split sep s) as [|w ws] eqn:Hs.
      * intros [= <- <-] Hps. done.
      * intros [= <- <-] Hps. destruct (IH w ws eq_refl Hps) as (r & -> & Hr).
        by exists r.
Qed.

(** A truthy token comes from a header of the form [Bearer <token>...]. *)
Lemma extractTokenFromHeader_truthy (req : Request.t) :
  truthy (extractTokenFromHeader req) = true →
  ∃ rest, Request.headers req !! "authorization" = Some ("Bearer " ++ rest).
Proof.
  unfold extractTokenFromHeader.
  destruct (Request.headers req !! "authorization") as [h|]; [|done].
  destruct (negb (truthy (JStr h))); [done|].
  destruct (Str.split " " h) as [|type parts] eqn:Hsplit; [done|].
  cbn [head default from_option id].
  case_bool_decide as Htype; [|done]. subst type.
  destruct parts as [|tok rest]; [done|]. intros _.
  destruct (split_second _ _ _ _ Hsplit ltac:(done)) as (r & -> & _).
  by exists r.
Qed.

Lemma extractFromJWT_needs_token (req : Request.t) :
  truthy (extractFromJWT decode req) = true → truthy (extractTokenFromHeader req) = true.
Proof.
  unfold extractFromJWT. destruct (extractTokenFromHeader req); try done.
  by destruct (negb (truthy (JStr s))) eqn:Ht; [|apply negb_false_iff in Ht].
Qed.

(** X1: a tenant claim is only ever taken from an [Authorization] header
    that starts with the exact scheme [Bearer] followed by a space: with any
    other header (another scheme, another letter case, no space, none at
    all) the token step yields nothing, whatever the decoder would say. *)
Theorem tenant_claim_needs_bearer_scheme (req : Request.t) :
  truthy (extractFromJWT decode req) = true →
  ∃ rest, Request.headers req !! "authorization" = Some ("Bearer " ++ rest).
Proof.
  intros H. by apply extractTokenFromHeader_truthy, extractFromJWT_needs_token.
Qed.

(** The header step yields [null] or a non-empty string. *)
Lemma extractFromHeader_cases (req : Request.t) :
  extractFromHeader req = JNull ∨
  ∃ t, t ≠ "" ∧ Request.headers req !! "x-tenant-id" = Some t ∧ extractFromHeader req = JStr t.
Proof.
  unfold extractFromHeader. change (Str.toLowerCase TENANT_HEADER) with "x-tenant-id".
  destruct (Request.headers req !! "x-tenant-id") as [t|]; cbn [from_option]; [|by left].
  unfold js_or. destruct (truthy (JStr t)) eqn:Ht; [|by left].
  right. exists t. split_and!; [|done..]. simpl in Ht.
  by apply negb_true_iff, bool_decide_eq_false in Ht.
Qed.

(** X2: a bearer token that cannot be decoded, decodes to something that is
    not an object, or carries no (or an empty) tenant claim never makes the
    middleware fail and never blocks the next source: the resolved tenant is
    then exactly what the tenant header step yields, the header's value or
    [null]. *)
Theorem claimless_token_falls_back_to_header (req : Request.t) :
  (∀ tok v, decode tok = Returned v → truthy (getPropOpt v "tenantId") = false) →
  resolveTenantId decode req = extractFromHeader req.
Proof.
  intros Hclaim.
  assert (Hjwt : extractFromJWT decode req = JNull).
  { unfold extractFromJWT. destruct (extractTokenFromHeader req) as [| | | |tok| |]; try done.
    destruct (negb (truthy (JStr tok))); [done|].
    destruct (decode tok) as [v|e] eqn:Hdec; [|done].
    unfold js_or. by rewrite (Hclaim tok v Hdec). }
  unfold resolveTenantId. rewrite Hjwt. cbn [truthy negb].
  destruct (extractFromHeader_cases req) as [Hh|(t & Ht & _ & Hh)]; rewrite Hh.
  - cbn [truthy negb]. by rewrite extractFromSlug_null.
  - by rewrite (truthy_JStr _ Ht).
Qed.

(** X3: [use] always puts the same fresh request id into the store and on
    the request, leaves every other store key, the headers, the path and
    the principal alone, and when no tenant is resolved it leaves the tenant
    id of store and request exactly as it found them (it never clears one). *)
Theorem use_frame (cls : store) (req : Request.t) :
  cls_get (use decode uuid cls req).1 REQUEST_ID_KEY = JStr uuid ∧
  Request.requestId (use decode uuid cls req).2 = JStr uuid ∧
  (∀ key, key ≠ REQUEST_ID_KEY → key ≠ TENANT_ID_KEY →
     cls_get (use decode uuid cls req).1 key = cls_get cls key) ∧
  Request.headers (use decode uuid cls req).2 = Request.headers req ∧
  Request.path (use decode uuid cls req).2 = Request.path req ∧
  Request.user (use decode uuid cls req).2 = Request.user req ∧
  (truthy (resolveTenantId decode req) = false →
     cls_get (use decode uuid cls req).1 TENANT_ID_KEY = cls_get cls TENANT_ID_KEY ∧
     Request.tenantId (use decode uuid cls req).2 = Request.tenantId req).
Proof.
  unfold use. rewrite resolveTenantId_requestId.
  destruct (truthy (resolveTenantId decode req)) eqn:Hres; cbn [fst snd];
    unfold cls_get, cls_set, getProp;
    (split_and!; [..|intros Hno]); try done.
  - by rewrite lookup_insert_ne, lookup_insert_eq.
  - intros key H1 H2. by rewrite !lookup_insert_ne.
  - by rewrite lookup_insert_eq.
  - intros key H1 H2. by rewrite lookup_insert_ne.
  - by rewrite lookup_insert_ne.
Qed.

End TenantMiddlewareFacts.

Lemma tenant_claim_needs_bearer_scheme_witness :
  let decode := fun _ : string => Returned (JObject {["tenantId" := JStr "t1"]}) in
  let req := Request.mk {["authorization" := "Bearer abc def"]} "/api/v1/users" "GET"
               "/api/v1/users" "10.0.0.1" JUndefined JUndefined None in
  ∃ rest, Request.headers req !! "authorization" = Some ("Bearer " ++ rest).
Proof.
  intros decode req. apply (tenant_claim_needs_bearer_scheme decode req). reflexivity.
Defined.

(** A request whose token is rejected by the decoder, with a tenant header. *)
Lemma claimless_token_falls_back_to_header_witness :
  let decode := fun _ : string => @Thrown jsval (Raised (JStr "jwt malformed")) in
  let req := Request.mk {["authorization" := "Bearer garbage"; "x-tenant-id" := "t2"]}
               "/api/v1/users" "GET" "/api/v1/users" "10.0.0.1" JUndefined JUndefined None in
  TenantMiddleware.resolveTenantId decode req = TenantMiddleware.extractFromHeader req.
Proof.
  intros decode req. apply (claimless_token_falls_back_to_header decode req).
  intros tok v Hdec. discriminate Hdec.
Defined.

Lemma use_frame_witness :
  let decode := fun _ : string => Returned JNull in
  let req := Request.mk ∅ "/api/v1/users" "GET" "/api/v1/users" "10.0.0.1"
               JUndefined (JStr "stale") None in
  let cls : store := {[TENANT_ID_KEY := JStr "stale"]} in
  cls_get (TenantMiddleware.use decode "r1" cls req).1 TENANT_ID_KEY = JStr "stale" ∧
  Request.tenantId (TenantMiddleware.use decode "r1" cls req).2 = JStr "stale".
Proof.
  intros decode req cls.
  apply (proj2 (proj2 (proj2 (proj2 (proj2 (proj2 (use_frame decode "r1" cls req))))))).
  reflexivity.
Defined.

(** ** More on the tenant-isolation middleware *)

Section TenantScoping.

Import PrismaService.

Variable cls : store.

Lemma scoped_model_is_tenant_model (m : option string) :
  includes tenantScopedModels m = true → includes nonTenantModels m = false.
Proof.
  destruct m as [s|]; [|done]. unfold includes.
  intros Hs%bool_decide_eq_true. apply bool_decide_eq_false.
  unfold tenantScopedModels, nonTenantModels in *. set_unfold. intros [->|[]].
  repeat (destruct Hs as [Hs|Hs]; [discriminate Hs|]). done.
Qed.

(** Every action filtered through [where] takes the same rewrite. *)
Lemma tenantIsolation_where_actions (p : Params) :
  truthy (cls_get cls TENANT_ID_KEY) = true →
  includes tenantScopedModels (model p) = true →
  action p ∈ ["findUnique"; "findFirst"; "findMany"; "count"; "aggregate";
              "update"; "updateMany"; "delete"; "deleteMany"] →
  tenantIsolation cls p = scope_where (cls_get cls TENANT_ID_KEY) p.
Proof.
  intros Ht Hm Ha. unfold tenantIsolation.
  rewrite (scoped_model_is_tenant_model _ Hm), Ht, Hm. unfold action_is.
  set_unfold. repeat (destruct Ha as [->|Ha]; [reflexivity|]). done.
Qed.

Lemma tenantIsolation_create (p : Params) :
  truthy (cls_get cls TENANT_ID_KEY) = true →
  includes tenantScopedModels (model p) = true →
  action p = "create" →
  tenantIsolation cls p = scope_data (cls_get cls TENANT_ID_KEY) p.
Proof.
  intros Ht Hm Ha. unfold tenantIsolation.
  rewrite (scoped_model_is_tenant_model _ Hm), Ht, Hm. unfold action_is. by rewrite Ha.
Qed.

Lemma tenantIsolation_upsert (p : Params) :
  truthy (cls_get cls TENANT_ID_KEY) = true →
  includes tenantScopedModels (model p) = true →
  action p = "upsert" →
  tenantIsolation cls p
  = match scope_where (cls_get cls TENANT_ID_KEY) p with
    | Next params => scope_create (cls_get cls TENANT_ID_KEY) params
    | Throw e => Throw e
    end.
Proof.
  intros Ht Hm Ha. unfold tenantIsolation.
  rewrite (scoped_model_is_tenant_model _ Hm), Ht, Hm. unfold action_is. by rewrite Ha.
Qed.

(** The [where] rewrite on an argument object, and without one. *)
Lemma scope_where_defined (tenantId : jsval) (p : Params) (a : Args) :
  args p = Some a →
  scope_where tenantId p
  = Next (mkParams (model p) (action p)
            (Some (mkArgs (Some (<["tenantId" := tenantId]> (default ∅ (args_where a))))
                     (args_data a) (args_create a)))).
Proof. intros Ha. unfold scope_where, set_where, spread_with. by rewrite Ha. Qed.

Lemma scope_where_undefined (tenantId : jsval) (p : Params) :
  args p = None → ∃ msg, scope_where tenantId p = Throw (TypeError msg).
Proof. intros Ha. unfold scope_where, reading_of_undefined. rewrite Ha. eauto. Qed.

(** X4: with a tenant id in the store, a read, count, aggregate, update or
    delete on a tenant-scoped model never reaches [next] unscoped. Called
    with an argument object it reaches [next] with [where.tenantId] set to
    the store's tenant id, in place of any [tenantId] the caller put there;
    every other condition, the action, the model and the payload are the
    caller's. Called without an argument it is refused with a [TypeError]. *)
Theorem tenant_isolation_scopes_where (p : Params) :
  truthy (cls_get cls TENANT_ID_KEY) = true →
  includes tenantScopedModels (model p) = true →
  action p ∈ ["findUnique"; "findFirst"; "findMany"; "count"; "aggregate";
              "update"; "updateMany"; "delete"; "deleteMany"] →
  (∀ a, args p = Some a →
     ∃ p' a' w', tenantIsolation cls p = Next p' ∧
       args p' = Some a' ∧ args_where a' = Some w' ∧
       w' !! "tenantId" = Some (cls_get cls TENANT_ID_KEY) ∧
       (∀ k, k ≠ "tenantId" → w' !! k = default ∅ (args_where a) !! k) ∧
       action p' = action p ∧ model p' = model p ∧
       args_data a' = args_data a ∧
       args_create a' = args_create a) ∧
  (args p = None → ∃ msg, tenantIsolation cls p = Throw (TypeError msg)) ∧
  (∀ p', tenantIsolation cls p = Next p' →
     ∃ a' w', args p' = Some a' ∧ args_where a' = Some w' ∧
       w' !! "tenantId" = Some (cls_get cls TENANT_ID_KEY)).
Proof.
  intros Ht Hm Ha. rewrite (tenantIsolation_where_actions p Ht Hm Ha).
  split_and!.
  - intros a Hargs. rewrite (scope_where_defined _ p a Hargs).
    eexists _, _, _. split; [reflexivity|]. cbn.
    split_and!; try done.
    + by rewrite lookup_insert_eq.
    + intros k Hk. by rewrite lookup_insert_ne.
  - apply scope_where_undefined.
  - intros p'. destruct (args p) as [a|] eqn:Hargs.
    + rewrite (scope_where_defined _ p a Hargs). intros [= <-].
      eexists _, _. cbn. split_and!; [done | done |]. by rewrite lookup_insert_eq.
    + destruct (scope_where_undefined (cls_get cls TENANT_ID_KEY) p Hargs) as [msg ->]. done.
Qed.

(** X5: with a tenant id in the store, a [create] on a tenant-scoped model
    reaches [next] with [data.tenantId] set to the store's tenant id,
    whatever tenant the caller wrote into the payload, and an [upsert] with
    both [where.tenantId] and [create.tenantId] set to it; the other fields
    of the payloads are the caller's. *)
Theorem tenant_isolation_stamps_new_records (p : Params) (a : Args) :
  truthy (cls_get cls TENANT_ID_KEY) = true →
  includes tenantScopedModels (model p) = true →
  args p = Some a →
  (action p = "create" →
     ∃ p' a' d', tenantIsolation cls p = Next p' ∧
       args p' = Some a' ∧ args_data a' = Some d' ∧
       d' !! "tenantId" = Some (cls_get cls TENANT_ID_KEY) ∧
       (∀ k, k ≠ "tenantId" → d' !! k = default ∅ (args_data a) !! k) ∧
       args_where a' = args_where a) ∧
  (action p = "upsert" →
     ∃ p' a' w' c', tenantIsolation cls p = Next p' ∧
       args p' = Some a' ∧
       args_where a' = Some w' ∧ args_create a' = Some c' ∧
       w' !! "tenantId" = Some (cls_get cls TENANT_ID_KEY) ∧
       c' !! "tenantId" = Some (cls_get cls TENANT_ID_KEY) ∧
       (∀ k, k ≠ "tenantId" → w' !! k = default ∅ (args_where a) !! k) ∧
       (∀ k, k ≠ "tenantId" → c' !! k = default ∅ (args_create a) !! k)).
Proof.
  intros Ht Hm Hargs. split; intros Ha.
  - rewrite (tenantIsolation_create p Ht Hm Ha). unfold scope_data. rewrite Hargs.
    eexists _, _, _. split; [reflexivity|]. unfold set_data, spread_with. rewrite Hargs. cbn.
    split_and!; try done.
    + by rewrite lookup_insert_eq.
    + intros k Hk. by rewrite lookup_insert_ne.
  - rewrite (tenantIsolation_upsert p Ht Hm Ha), (scope_where_defined _ p a Hargs).
    unfold scope_create. cbn [args].
    eexists _, _, _, _. split; [reflexivity|]. unfold set_create, spread_with. cbn.
    split_and!; try done; try (by rewrite lookup_insert_eq);
      intros k Hk; by rewrite lookup_insert_ne.
Qed.

(** X6: the middleware leaves an operation untouched, even with a tenant id
    in the store, whenever its model is not in the list of tenant-scoped
    models (a raw query has none) or its action is not one of the eleven
    named ones: [createMany], [groupBy], [findFirstOrThrow] and the like
    run without a tenant filter. *)
Theorem tenant_isolation_skips_unlisted (p : Params) :
  includes tenantScopedModels (model p) = false ∨
  action p ∉ ["findUnique"; "findFirst"; "findMany"; "count"; "aggregate";
              "update"; "updateMany"; "delete"; "deleteMany"; "create"; "upsert"] →
  tenantIsolation cls p = Next p.
Proof.
  intros Hout. unfold tenantIsolation.
  destruct (includes nonTenantModels (model p)); [done|].
  destruct (truthy (cls_get cls TENANT_ID_KEY)); [|done].
  destruct (includes tenantScopedModels (model p)); [|done].
  destruct Hout as [Hm|Ha]; [done|].
  assert (Hno : ∀ a, a ∈ ["findUnique"; "findFirst"; "findMany"; "count"; "aggregate";
                          "update"; "updateMany"; "delete"; "deleteMany"; "create"; "upsert"] →
                action_is p a = false).
  { intros a Hin. apply action_is_false. by intros <-. }
  rewrite !Hno by set_solver. reflexivity.
Qed.

(** Each of the three rewrites, applied to its own output, changes nothing. *)
Lemma scope_where_idempotent (tenantId : jsval) (p p' : Params) :
  scope_where tenantId p = Next p' → scope_where tenantId p' = Next p'.
Proof.
  unfold scope_where. destruct (args p) as [a|] eqn:Ha; [|done]. intros [= <-].
  unfold set_where, spread_with. rewrite Ha. cbn. by rewrite insert_insert_eq.
Qed.

Lemma scope_data_idempotent (tenantId : jsval) (p p' : Params) :
  scope_data tenantId p = Next p' → scope_data tenantId p' = Next p'.
Proof.
  unfold scope_data. destruct (args p) as [a|] eqn:Ha; [|done]. intros [= <-].
  unfold set_data, spread_with. rewrite Ha. cbn. by rewrite insert_insert_eq.
Qed.

Lemma scope_upsert_idempotent (tenantId : jsval) (p p' : Params) :
  match scope_where tenantId p with
  | Next params => scope_create tenantId params
  | Throw e => Throw e
  end = Next p' →
  match scope_where tenantId p' with
  | Next params => scope_create tenantId params
  | Throw e => Throw e
  end = Next p'.
Proof.
  unfold scope_where, scope_create, set_where, set_create, spread_with.
  destruct (args p) as [a|] eqn:Ha; [|done]. cbn. intros [= <-]. cbn.
  by rewrite !insert_insert_eq.
Qed.

(** X7: tenant isolation is idempotent: running the middleware on its own
    output changes nothing, so registering or passing through it twice is
    harmless. *)
Theorem tenant_isolation_idempotent (p p' : Params) :
  tenantIsolation cls p = Next p' → tenantIsolation cls p' = Next p'.
Proof.
  intros H. destruct (tenantIsolation_action cls p p' H) as [Haction Hmodel].
  unfold tenantIsolation, action_is in *. rewrite Haction, Hmodel.
  repeat match type of H with
         | context [if ?b then _ else _] => destruct b eqn:?
         end;
    first [ exact (scope_where_idempotent _ _ _ H)
          | exact (scope_data_idempotent _ _ _ H)
          | exact (scope_upsert_idempotent _ _ _ H)
          | by injection H as <- ].
Qed.

End TenantScoping.

Lemma tenant_isolation_scopes_where_witness :
  let cls : store := {[TENANT_ID_KEY := JStr "t1"]} in
  let a := PrismaService.mkArgs (Some {["tenantId" := JStr "t2"; "isActive" := JBool true]})
             None None in
  let p := PrismaService.mkParams (Some "User") "findMany" (Some a) in
  let bare := PrismaService.mkParams (Some "User") "findMany" None in
  (∃ p' a' w', PrismaService.tenantIsolation cls p = PrismaService.Next p' ∧
     PrismaService.args p' = Some a' ∧
     PrismaService.args_where a' = Some w' ∧
     w' !! "tenantId" = Some (JStr "t1") ∧
     w' !! "isActive" = Some (JBool true)) ∧
  (∃ msg, PrismaService.tenantIsolation cls bare = PrismaService.Throw (TypeError msg)).
Proof.
  intros cls a p bare. split.
  - destruct (tenant_isolation_scopes_where cls p) as [Hdef _].
    + reflexivity.
    + reflexivity.
    + set_solver.
    + destruct (Hdef a eq_refl) as (p' & a' & w' & H1 & H2 & H3 & H4 & H5 & _).
      exists p', a', w'. split_and!; [exact H1 | exact H2 | exact H3 | exact H4 |].
      rewrite H5 by discriminate. reflexivity.
  - destruct (tenant_isolation_scopes_where cls bare) as (_ & Hundef & _).
    + reflexivity.
    + reflexivity.
    + set_solver.
    + apply Hundef. reflexivity.
Defined.

Lemma tenant_isolation_stamps_new_records_witness :
  let cls : store := {[TENANT_ID_KEY := JStr "t1"]} in
  let a := PrismaService.mkArgs None
             (Some {["tenantId" := JStr "t2"; "email" := JStr "a@b.c"]}) None in
  let p := PrismaService.mkParams (Some "Invitation") "create" (Some a) in
  ∃ p' a' d', PrismaService.tenantIsolation cls p = PrismaService.Next p' ∧
    PrismaService.args p' = Some a' ∧
    PrismaService.args_data a' = Some d' ∧
    d' !! "tenantId" = Some (JStr "t1").
Proof.
  intros cls a p.
  destruct (proj1 (tenant_isolation_stamps_new_records cls p a eq_refl eq_refl eq_refl) eq_refl)
    as (p' & a' & d' & H1 & H2 & H3 & H4 & _).
  exists p', a', d'. split_and!; [exact H1 | exact H2 | exact H3 | exact H4].
Defined.

Lemma tenant_isolation_skips_unlisted_witness :
  let cls : store := {[TENANT_ID_KEY := JStr "t1"]} in
  let many := PrismaService.mkParams (Some "User") "createMany"
                (Some (PrismaService.mkArgs None (Some {["email" := JStr "a@b.c"]}) None)) in
  let session := PrismaService.mkParams (Some "Session") "findMany" None in
  PrismaService.tenantIsolation cls many = PrismaService.Next many ∧
  PrismaService.tenantIsolation cls session = PrismaService.Next session.
Proof.
  intros cls many session. split.
  - apply (tenant_isolation_skips_unlisted cls many). right.
    apply (bool_decide_unpack _). vm_compute. exact I.
  - apply (tenant_isolation_skips_unlisted cls session). left. reflexivity.
Defined.

Lemma tenant_isolation_idempotent_witness :
  let cls : store := {[TENANT_ID_KEY := JStr "t1"]} in
  let p := PrismaService.mkParams (Some "User") "count"
             (Some (PrismaService.mkArgs None None None)) in
  let p' := PrismaService.mkParams (Some "User") "count"
              (Some (PrismaService.mkArgs (Some {["tenantId" := JStr "t1"]}) None None)) in
  PrismaService.tenantIsolation cls p' = PrismaService.Next p'.
Proof.
  intros cls p p'. apply (tenant_isolation_idempotent cls p p'). reflexivity.
Defined.

(** ** More on soft delete and the escape hatch *)

Section SoftDeleteComposition.

Import PrismaService.

Variable now : Z.
Variable cls : store.

Lemma run_soft_delete_pair (p : Params) :
  run [softDeleteWrites now; softDeleteReads] p =
    match softDeleteWrites now p with
    | Next p2 => softDeleteReads p2
    | Throw e => Throw e
    end.
Proof.
  cbn [run]. destruct (softDeleteWrites now p) as [p2|e]; [|done].
  by destruct (softDeleteReads p2).
Qed.

(** X8: soft delete only touches [delete], [deleteMany], [findUnique],
    [findFirst] and [findMany]. Every other action passes both soft-delete
    middlewares unchanged: [count] and [aggregate] get no [deletedAt]
    filter, [update], [updateMany] and [upsert] can hit soft-deleted
    records, and the gateway with soft delete enabled treats them exactly
    as the gateway without it. *)
Theorem soft_delete_leaves_other_actions (p : Params) :
  action p ∉ ["delete"; "deleteMany"; "findUnique"; "findFirst"; "findMany"] →
  run [softDeleteWrites now; softDeleteReads] p = Next p ∧
  run (enableSoftDelete now (constructed cls)) p = run (constructed cls) p.
Proof.
  intros Hout.
  assert (Hne : ∀ a, a ∈ ["delete"; "deleteMany"; "findUnique"; "findFirst"; "findMany"] →
                action p ≠ a) by (intros a Hin <-; done).
  assert (Hpair : ∀ q, action q = action p →
            match softDeleteWrites now q with
            | Next p2 => softDeleteReads p2
            | Throw e => Throw e
            end = Next q).
  { intros q Hq.
    rewrite softDeleteWrites_other by (rewrite Hq; apply Hne; set_solver).
    apply softDeleteReads_other; rewrite Hq; apply Hne; set_solver. }
  split.
  - rewrite run_soft_delete_pair. by apply Hpair.
  - destruct (tenantIsolation cls p) as [p1|e] eqn:Hti.
    + destruct (tenantIsolation_action cls p p1 Hti) as [Ha _].
      rewrite (run_soft_delete_gateway now cls p p1 Hti), (Hpair p1 Ha).
      cbn [constructed run]. by rewrite Hti.
    + rewrite (run_soft_delete_gateway_throws now cls p e Hti).
      cbn [constructed run]. by rewrite Hti.
Qed.

(** X9: a [findUnique] or [findFirst] issued with an argument object that
    has no [where], through the gateway with soft delete enabled. If the
    store holds a tenant id and the model is tenant-scoped, tenant
    isolation has supplied a [where] and the query runs as [findFirst] on
    [{tenantId, deletedAt: null}]; otherwise the soft-delete middleware
    throws a [TypeError] and the engine is never reached. *)
Theorem soft_delete_single_read_without_where (p : Params) (a : Args) :
  action p = "findUnique" ∨ action p = "findFirst" →
  args p = Some a →
  args_where a = None →
  if truthy (cls_get cls TENANT_ID_KEY) && includes tenantScopedModels (model p)
  then run (enableSoftDelete now (constructed cls)) p
       = Next (set_where (set_action p "findFirst")
                 {["tenantId" := cls_get cls TENANT_ID_KEY; "deletedAt" := JNull]})
  else ∃ msg, run (enableSoftDelete now (constructed cls)) p = Throw (TypeError msg) ∧
       ∀ (R : Type) (engine : Params → outcome R),
         execute engine (enableSoftDelete now (constructed cls)) p = Thrown (TypeError msg).
Proof.
  intros Ha Hargs Hw.
  assert (Hin : action p ∈ ["findUnique"; "findFirst"; "findMany"; "count"; "aggregate";
                            "update"; "updateMany"; "delete"; "deleteMany"])
    by (destruct Ha as [-> | ->]; set_solver).
  assert (Hnd : action p ≠ "delete" ∧ action p ≠ "deleteMany")
    by (destruct Ha as [-> | ->]; done).
  destruct (truthy (cls_get cls TENANT_ID_KEY)) eqn:Ht;
    [destruct (includes tenantScopedModels (model p)) eqn:Hm|]; cbn [andb].
  - pose proof (tenantIsolation_where_actions cls p Ht Hm Hin) as Hti.
    rewrite (scope_where_defined _ p a Hargs) in Hti.
    rewrite (run_soft_delete_gateway now cls p _ Hti).
    rewrite softDeleteWrites_other by (cbn; tauto).
    match type of Hti with
    | _ = Next ?q => rewrite (softDeleteReads_single q _ _ Ha eq_refl eq_refl)
    end.
    rewrite Hw. unfold set_where, set_action. cbn. rewrite Hargs. reflexivity.
  - assert (Hpass : tenantIsolation cls p = Next p).
    { unfold tenantIsolation. rewrite Hm.
      destruct (includes nonTenantModels _); [done|]. by rewrite Ht. }
    rewrite (run_soft_delete_gateway now cls p p Hpass).
    rewrite softDeleteWrites_other by tauto.
    destruct (softDeleteReads_single_without_where p a Ha Hargs Hw) as [msg Hmsg].
    exists msg. split; [done|]. intros R engine. unfold execute.
    by rewrite (run_soft_delete_gateway now cls p p Hpass), softDeleteWrites_other, Hmsg by tauto.
  - assert (Hpass : tenantIsolation cls p = Next p).
    { unfold tenantIsolation. rewrite Ht. by destruct (includes nonTenantModels _). }
    rewrite (run_soft_delete_gateway now cls p p Hpass).
    rewrite softDeleteWrites_other by tauto.
    destruct (softDeleteReads_single_without_where p a Ha Hargs Hw) as [msg Hmsg].
    exists msg. split; [done|]. intros R engine. unfold execute.
    by rewrite (run_soft_delete_gateway now cls p p Hpass), softDeleteWrites_other, Hmsg by tauto.
Qed.

End SoftDeleteComposition.

(** A [count] on [User] for tenant [t1]: scoped, but not filtered on
    [deletedAt]. *)
Lemma soft_delete_leaves_other_actions_witness :
  let cls : store := {[TENANT_ID_KEY := JStr "t1"]} in
  let p := PrismaService.mkParams (Some "User") "count"
             (Some (PrismaService.mkArgs None None None)) in
  PrismaService.run [PrismaService.softDeleteWrites 0; PrismaService.softDeleteReads] p
  = PrismaService.Next p ∧
  PrismaService.run (PrismaService.enableSoftDelete 0 (PrismaService.constructed cls)) p
  = PrismaService.run (PrismaService.constructed cls) p.
Proof.
  intros cls p. apply (soft_delete_leaves_other_actions 0 cls p).
  apply (bool_decide_unpack _). vm_compute. exact I.
Defined.

(** [tenant.findFirst({})] on the model that is never scoped. *)
Lemma soft_delete_single_read_without_where_witness :
  let cls : store := {[TENANT_ID_KEY := JStr "t1"]} in
  let a := PrismaService.mkArgs None None None in
  let p := PrismaService.mkParams (Some "Tenant") "findFirst" (Some a) in
  ∃ msg, PrismaService.run (PrismaService.enableSoftDelete 0 (PrismaService.constructed cls)) p
         = PrismaService.Throw (TypeError msg) ∧
    ∀ (R : Type) (engine : PrismaService.Params → outcome R),
      PrismaService.execute engine
        (PrismaService.enableSoftDelete 0 (PrismaService.constructed cls)) p
      = Thrown (TypeError msg).
Proof.
  intros cls a p.
  apply (soft_delete_single_read_without_where 0 cls p a); [right| |]; reflexivity.
Defined.

Section SoftDeleteScope.

Import PrismaService.

Variable now : Z.
Variable cls : store.

(** The soft-delete middlewares never throw once a [where] is there, and
    they leave its [tenantId] alone. *)
Lemma soft_delete_pair_keeps_tenant (q : Params) (a : Args) (w : obj) :
  args q = Some a → args_where a = Some w →
  ∃ q' a' w', match softDeleteWrites now q with
              | Next p2 => softDeleteReads p2
              | Throw e => Throw e
              end = Next q' ∧
    args q' = Some a' ∧
    args_where a' = Some w' ∧ w' !! "tenantId" = w !! "tenantId" ∧
    model q' = model q.
Proof.
  intros Hargs Hw.
  destruct (decide (action q = "delete")) as [Hd|Hd].
  { rewrite (softDeleteWrites_delete now q a) by done.
    rewrite softDeleteReads_other by (cbn; discriminate).
    eexists _, _, _. split; [reflexivity|]. unfold set_data, set_action. cbn.
    rewrite Hargs. split; [reflexivity|]. cbn. by rewrite Hw. }
  destruct (decide (action q = "deleteMany")) as [Hdm|Hdm].
  { rewrite (softDeleteWrites_deleteMany now q a) by done.
    rewrite softDeleteReads_other by (cbn; discriminate).
    eexists _, _, _. split; [reflexivity|]. unfold set_data, set_action. cbn.
    rewrite Hargs. split; [reflexivity|]. cbn. by rewrite Hw. }
  rewrite softDeleteWrites_other by done.
  destruct (decide (action q = "findUnique" ∨ action q = "findFirst")) as [Hs|Hs].
  { rewrite (softDeleteReads_single q a w Hs Hargs Hw).
    eexists _, _, _. split; [reflexivity|]. unfold set_where, set_action. cbn.
    rewrite Hargs. split; [reflexivity|]. cbn. split_and!; [done| |done].
    by rewrite lookup_insert_ne. }
  destruct (decide (action q = "findMany")) as [Hfm|Hfm].
  { rewrite (softDeleteReads_findMany q a Hfm Hargs), Hw.
    destruct (getProp w "deletedAt");
      eexists _, _, _; (split; [reflexivity|]); unfold set_where; cbn; rewrite ?Hargs;
      (split; [reflexivity|]); cbn; rewrite ?Hw;
      (split_and!; [done| |done]); by rewrite ?lookup_insert_ne. }
  rewrite softDeleteReads_other by tauto.
  eexists _, _, _. split; [reflexivity|]. by rewrite Hargs, Hw.
Qed.

(** X10: with a tenant id in the store and soft delete enabled, a read,
    count, aggregate, update or delete on a tenant-scoped model never
    reaches the engine unscoped. Called with an argument object, with or
    without a [where] in it, it reaches the engine, and reaches it with
    [where.tenantId] equal to the store's tenant id: the soft-delete
    rewrites never drop or replace the tenant filter. Called without an
    argument it is refused with a [TypeError] and the engine is not
    reached. *)
Theorem soft_delete_keeps_tenant_scope (p : Params) :
  truthy (cls_get cls TENANT_ID_KEY) = true →
  includes tenantScopedModels (model p) = true →
  action p ∈ ["findUnique"; "findFirst"; "findMany"; "count"; "aggregate";
              "update"; "updateMany"; "delete"; "deleteMany"] →
  (∀ a, args p = Some a →
     ∃ p' a' w', run (enableSoftDelete now (constructed cls)) p = Next p' ∧
       args p' = Some a' ∧ args_where a' = Some w' ∧
       w' !! "tenantId" = Some (cls_get cls TENANT_ID_KEY) ∧
       model p' = model p ∧
       ∀ (R : Type) (engine : Params → outcome R),
         execute engine (enableSoftDelete now (constructed cls)) p = engine p') ∧
  (args p = None →
     ∃ msg, run (enableSoftDelete now (constructed cls)) p = Throw (TypeError msg) ∧
       ∀ (R : Type) (engine : Params → outcome R),
         execute engine (enableSoftDelete now (constructed cls)) p = Thrown (TypeError msg)) ∧
  (∀ p', run (enableSoftDelete now (constructed cls)) p = Next p' →
     ∃ a' w', args p' = Some a' ∧ args_where a' = Some w' ∧
       w' !! "tenantId" = Some (cls_get cls TENANT_ID_KEY)).
Proof.
  intros Ht Hm Ha.
  pose proof (tenantIsolation_where_actions cls p Ht Hm Ha) as Hti.
  assert (Hdef : ∀ a, args p = Some a →
            ∃ p' a' w', run (enableSoftDelete now (constructed cls)) p = Next p' ∧
              args p' = Some a' ∧ args_where a' = Some w' ∧
              w' !! "tenantId" = Some (cls_get cls TENANT_ID_KEY) ∧ model p' = model p).
  { intros a Hargs. rewrite (scope_where_defined _ p a Hargs) in Hti.
    match type of Hti with
    | _ = Next ?q =>
      destruct (soft_delete_pair_keeps_tenant q _ _ eq_refl eq_refl)
        as (q' & a' & w' & Hrun & Hargs' & Hw' & Htid & Hmodel)
    end.
    exists q', a', w'.
    rewrite (run_soft_delete_gateway now cls p _ Hti).
    split_and!; [exact Hrun | exact Hargs' | exact Hw' | | exact Hmodel].
    rewrite Htid. by rewrite lookup_insert_eq. }
  assert (Hundef : args p = None →
            ∃ msg, run (enableSoftDelete now (constructed cls)) p = Throw (TypeError msg)).
  { intros Hargs.
    destruct (scope_where_undefined (cls_get cls TENANT_ID_KEY) p Hargs) as [msg Hmsg].
    rewrite Hmsg in Hti. exists msg. by apply run_soft_delete_gateway_throws. }
  split_and!.
  - intros a Hargs.
    destruct (Hdef a Hargs) as (p' & a' & w' & Hrun & Hargs' & Hw' & Htid & Hmodel).
    exists p', a', w'. split_and!; try done.
    intros R engine. unfold execute. by rewrite Hrun.
  - intros Hargs. destruct (Hundef Hargs) as [msg Hmsg].
    exists msg. split; [exact Hmsg|]. intros R engine. unfold execute. by rewrite Hmsg.
  - intros p' Hp'. destruct (args p) as [a|] eqn:Hargs.
    + destruct (Hdef a eq_refl) as (q' & a' & w' & Hrun & Hargs' & Hw' & Htid & _).
      rewrite Hrun in Hp'. injection Hp' as <-. eauto.
    + destruct (Hundef eq_refl) as [msg Hmsg]. by rewrite Hmsg in Hp'.
Qed.

(** What the isolation middleware does depends on the store only through
    the tenant id it reads. *)
Lemma tenantIsolation_reads_tenant_only (cls1 cls2 : store) (q : Params) :
  cls_get cls1 TENANT_ID_KEY = cls_get cls2 TENANT_ID_KEY →
  tenantIsolation cls1 q = tenantIsolation cls2 q.
Proof. unfold tenantIsolation. by intros ->. Qed.

(** X11: a query issued through the gateway from inside
    [withoutTenantScope] reaches the engine exactly as written, with no
    tenant filter, whatever tenant the store held; and once
    [withoutTenantScope] is over, whatever the callback did, the gateway
    scopes every query exactly as it did before the call. *)
Theorem escape_hatch_unscopes_then_rescopes
    (R : Type) (engine : Params → outcome R) (q : Params) :
  (withoutTenantScope (fun inside => (execute engine (constructed inside) q, inside)) cls).1
  = engine q ∧
  ∀ (T : Type) (callback : store → outcome T * store) (q' : Params),
    tenantIsolation (withoutTenantScope callback cls).2 q' = tenantIsolation cls q'.
Proof.
  split.
  - unfold withoutTenantScope. cbn [fst]. unfold execute, constructed. cbn [run].
    assert (Hclear : tenantIsolation (cls_set cls TENANT_ID_KEY JUndefined) q = Next q).
    { unfold tenantIsolation, cls_get, cls_set, getProp. rewrite lookup_insert_eq.
      cbn [default from_option id truthy]. by destruct (includes nonTenantModels _). }
    by rewrite Hclear.
  - intros T callback q'. apply tenantIsolation_reads_tenant_only.
    unfold withoutTenantScope, cls_get, cls_set, getProp.
    destruct (callback _) as [result cls']. cbn [snd].
    rewrite lookup_insert_eq. by destruct (cls !! TENANT_ID_KEY).
Qed.

End SoftDeleteScope.

(** A [deleteMany({})] on [User] for tenant [t1], and a [deleteMany()]. *)
Lemma soft_delete_keeps_tenant_scope_witness :
  let cls : store := {[TENANT_ID_KEY := JStr "t1"]} in
  let a := PrismaService.mkArgs None None None in
  let p := PrismaService.mkParams (Some "User") "deleteMany" (Some a) in
  let bare := PrismaService.mkParams (Some "User") "deleteMany" None in
  (∃ p' a' w',
     PrismaService.run (PrismaService.enableSoftDelete 0 (PrismaService.constructed cls)) p
     = PrismaService.Next p' ∧
     PrismaService.args p' = Some a' ∧
     PrismaService.args_where a' = Some w' ∧
     w' !! "tenantId" = Some (JStr "t1")) ∧
  (∃ msg,
     PrismaService.run (PrismaService.enableSoftDelete 0 (PrismaService.constructed cls)) bare
     = PrismaService.Throw (TypeError msg)).
Proof.
  intros cls a p bare. split.
  - destruct (soft_delete_keeps_tenant_scope 0 cls p) as [Hdef _].
    + reflexivity.
    + reflexivity.
    + apply (bool_decide_unpack _). vm_compute. exact I.
    + destruct (Hdef a eq_refl) as (p' & a' & w' & H1 & H2 & H3 & H4 & _).
      exists p', a', w'. split_and!; [exact H1 | exact H2 | exact H3 | exact H4].
  - destruct (soft_delete_keeps_tenant_scope 0 cls bare) as (_ & Hundef & _).
    + reflexivity.
    + reflexivity.
    + apply (bool_decide_unpack _). vm_compute. exact I.
    + destruct (Hundef eq_refl) as (msg & Hmsg & _). by exists msg.
Defined.

(** ** More on the guards *)

Section RolesGuardFacts.

Import RolesGuard.

(** X12: [matchRoles] holds exactly when the principal has a role list
    that contains [super_admin] or one of the required roles; a principal
    without a role list, or with an empty one, never matches. *)
Theorem matchRoles_iff (requiredRoles : list string) (userRoles : option (list string)) :
  matchRoles requiredRoles userRoles = true ↔
  ∃ rs, userRoles = Some rs ∧
    (UserRole.SUPER_ADMIN ∈ rs ∨ ∃ role, role ∈ requiredRoles ∧ role ∈ rs).
Proof.
  unfold matchRoles. destruct userRoles as [[|r rs]|].
  - split; [done|]. intros (rs & [= <-] & [H|(role & _ & H)]); by apply elem_of_nil in H.
  - case_bool_decide as Hsa.
    + split; [|done]. intros _. exists (r :: rs). auto.
    + rewrite existsb_exists. split.
      * intros (role & Hin & Hrole). exists (r :: rs). split; [done|]. right.
        exists role. split; [by apply list_elem_of_In|]. by apply bool_decide_eq_true in Hrole.
      * intros (rs' & [= <-] & [H|(role & Hin & Hrole)]); [done|].
        exists role. split; [by apply list_elem_of_In|]. by apply bool_decide_eq_true.
  - split; [done|]. by intros (rs & [=] & _).
Qed.

(** X13: role metadata on the handler replaces the controller's, it does
    not add to it. Once the handler carries [@Roles(...)], the class-level
    roles play no part in the verdict; in particular a handler annotated
    with an empty [@Roles()] is open to every request, anonymous ones
    included, even inside a controller restricted to some role. *)
Theorem handler_roles_replace_class_roles
    (handler class : Metadata) (request : Request.t) :
  (is_Some (roles handler) →
   ∀ class', canActivate (mkContext handler class request)
             = canActivate (mkContext handler class' request)) ∧
  (roles handler = Some [] →
   canActivate (mkContext handler class request) = Returned request) ∧
  (roles handler = None →
   canActivate (mkContext handler class request)
   = canActivate (mkContext class class request)).
Proof.
  unfold canActivate, getAllAndOverride. cbn [getHandler getClass getRequest omap].
  unfold Reflector.roles at 1 2 3 4 5.
  split_and!.
  - intros [rs Hrs] class'. cbn. by rewrite Hrs.
  - intros Hrs. cbn. by rewrite Hrs.
  - intros Hrs. cbn. rewrite Hrs. by destruct (Reflector.roles class).
Qed.

End RolesGuardFacts.

Lemma handler_roles_replace_class_roles_witness :
  let class := Decorators.Roles ["admin"] undecorated in
  let handler := Decorators.Roles [] undecorated in
  let anonymous := Request.mk ∅ "/api/v1/reports" "GET" "/api/v1/reports" "10.0.0.1"
                     JUndefined JUndefined None in
  RolesGuard.canActivate (mkContext handler class anonymous) = Returned anonymous ∧
  RolesGuard.canActivate (mkContext handler class anonymous)
  = RolesGuard.canActivate (mkContext handler undecorated anonymous) ∧
  RolesGuard.canActivate (mkContext undecorated class anonymous)
  = RolesGuard.canActivate (mkContext class class anonymous).
Proof.
  intros class handler anonymous. split_and!.
  - apply (proj1 (proj2 (handler_roles_replace_class_roles handler class anonymous))).
    reflexivity.
  - apply (proj1 (handler_roles_replace_class_roles handler class anonymous)).
    simpl. eauto.
  - apply (proj2 (proj2 (handler_roles_replace_class_roles undecorated class anonymous))).
    reflexivity.
Defined.

Section GuardSequenceFacts.

Variable strategy : Request.t → JwtAuthGuard.PassportResult.

Lemma strict_eq_str_true (s : string) (v : jsval) : strict_eq_str s v = true → v = JStr s.
Proof.
  destruct v; simpl; try done. by intros ->%bool_decide_eq_true.
Qed.

(** What it takes for the tenant guard to let a request through on a
    protected route. *)
Lemma tenant_guard_pass (cls : store) (context : ExecutionContext) (r : Request.t) :
  markedPublic context = false →
  TenantGuard.canActivate cls context = Returned r →
  let tenantId :=
    js_or (cls_get cls TENANT_ID_KEY) (Request.tenantId (getRequest context)) in
  truthy tenantId = true ∧
  r = Request.set_tenantId (getRequest context) tenantId ∧
  ∀ u, Request.user (getRequest context) = Some u → tenantId = JStr (User.tenantId u).
Proof.
  unfold TenantGuard.canActivate, markedPublic. intros ->.
  destruct (truthy (js_or _ _)) eqn:Ht; cbn [negb]; [|done].
  destruct (Request.user (getRequest context)) as [u|].
  - destruct (strict_eq_str _ _) eqn:Heq; cbn [negb]; [|done].
    intros [= <-]. split_and!; [done..|].
    intros u' [= <-]. by apply strict_eq_str_true.
  - intros [= <-]. by split_and!.
Qed.

(** What a pass of the whole sequence on a protected route implies. *)
Lemma runGuards_pass (cls : store) (context : ExecutionContext) (r : Request.t) :
  markedPublic context = false →
  Pipeline.runGuards strategy cls context = Returned r →
  ∃ u,
    JwtAuthGuard.err (strategy (getRequest context)) = None ∧
    JwtAuthGuard.user (strategy (getRequest context)) = Some u ∧
    Request.user r = Some u ∧
    Request.tenantId r = JStr (User.tenantId u) ∧
    User.tenantId u ≠ "" ∧
    js_or (cls_get cls TENANT_ID_KEY) (Request.tenantId (getRequest context))
    = JStr (User.tenantId u) ∧
    (∀ required, getAllAndOverride roles [getHandler context; getClass context] = Some required →
       required ≠ [] → RolesGuard.matchRoles required (User.roles u) = true) ∧
    Request.headers r = Request.headers (getRequest context) ∧
    Request.path r = Request.path (getRequest context) ∧
    Request.requestId r = Request.requestId (getRequest context).
Proof.
  intros Hpub. unfold Pipeline.runGuards.
  destruct (JwtAuthGuard.canActivate strategy context) as [r1|e] eqn:Hjwt; [|done].
  unfold JwtAuthGuard.canActivate in Hjwt. unfold markedPublic in Hpub.
  rewrite Hpub in Hjwt.
  destruct (JwtAuthGuard.err (strategy (getRequest context))) as [e|] eqn:Herr; [done|].
  destruct (JwtAuthGuard.user (strategy (getRequest context))) as [u|] eqn:Huser; [|done].
  cbn in Hjwt. injection Hjwt as <-.
  destruct (TenantGuard.canActivate cls _) as [r2|e] eqn:Htg; [|done].
  apply tenant_guard_pass in Htg as (Htruthy & -> & Hmatch); [|exact Hpub].
  cbn [getRequest with_request Request.tenantId Request.user Request.set_user] in *.
  specialize (Hmatch u eq_refl).
  intros Hroles. exists u.
  assert (Hr : r = Request.set_tenantId (Request.set_user (getRequest context) u)
                 (JStr (User.tenantId u)) ∧
               ∀ required,
                 getAllAndOverride roles [getHandler context; getClass context] = Some required →
                 required ≠ [] → RolesGuard.matchRoles required (User.roles u) = true).
  { unfold RolesGuard.canActivate in Hroles.
    cbn [getHandler getClass getRequest with_request] in Hroles.
    rewrite Hmatch in Hroles.
    destruct (getAllAndOverride roles _) as [[|x required]|].
    - injection Hroles as <-. split; [done|]. by intros ? [= <-].
    - cbn [Request.user Request.set_tenantId Request.set_user] in Hroles.
      destruct (RolesGuard.matchRoles (x :: required) (User.roles u)) eqn:Hmr;
        cbn [negb] in Hroles; [|done].
      injection Hroles as <-. split; [done|]. by intros ? [= <-].
    - injection Hroles as <-. split; [done|]. done. }
  destruct Hr as [-> Hreq].
  split_and!; try done.
  rewrite Hmatch in Htruthy. simpl in Htruthy.
  by apply negb_true_iff, bool_decide_eq_false in Htruthy.
Qed.

(** X14: what the guard sequence guarantees when it lets a request through
    on a route not marked public. The strategy reported no error and a
    principal; the request handed on carries that principal and, as its
    tenant id, a non-empty string equal to the principal's tenant id, which
    is also the tenant id the guard read from store or request; the role
    requirement of the route, if any, is met; headers, path and request id
    are the incoming ones. *)
Theorem guards_postcondition (cls : store) (context : ExecutionContext) (r : Request.t) :
  markedPublic context = false →
  Pipeline.runGuards strategy cls context = Returned r →
  ∃ u,
    JwtAuthGuard.err (strategy (getRequest context)) = None ∧
    JwtAuthGuard.user (strategy (getRequest context)) = Some u ∧
    Request.user r = Some u ∧
    Request.tenantId r = JStr (User.tenantId u) ∧
    User.tenantId u ≠ "" ∧
    js_or (cls_get cls TENANT_ID_KEY) (Request.tenantId (getRequest context))
    = JStr (User.tenantId u) ∧
    (∀ required, getAllAndOverride roles [getHandler context; getClass context] = Some required →
       required ≠ [] → RolesGuard.matchRoles required (User.roles u) = true) ∧
    Request.headers r = Request.headers (getRequest context) ∧
    Request.path r = Request.path (getRequest context) ∧
    Request.requestId r = Request.requestId (getRequest context).
Proof. apply runGuards_pass. Qed.

(** X15: on a route marked public the JWT guard and the tenant guard do
    nothing: the strategy is never consulted (a bearer token is not
    validated and no principal is attached), no tenant is required or
    compared, and the verdict is the role guard's alone. So a public route
    without role metadata admits every request as it is, and a public route
    that also carries [@Roles(...)] refuses every request on which nothing
    else has put a principal, with [Forbidden: User not authenticated]. *)
Theorem public_route_runs_role_guard_only (cls : store) (context : ExecutionContext) :
  markedPublic context = true →
  Pipeline.runGuards strategy cls context = RolesGuard.canActivate context ∧
  (getAllAndOverride roles [getHandler context; getClass context] = None →
   Pipeline.runGuards strategy cls context = Returned (getRequest context)) ∧
  (∀ required, getAllAndOverride roles [getHandler context; getClass context] = Some required →
     required ≠ [] → Request.user (getRequest context) = None →
     Pipeline.runGuards strategy cls context
     = Thrown (ForbiddenException "User not authenticated")).
Proof.
  intros Hpub.
  assert (Hrun : Pipeline.runGuards strategy cls context = RolesGuard.canActivate context).
  { unfold Pipeline.runGuards. rewrite (jwt_public strategy context Hpub).
    rewrite canActivate_public by done. by destruct context. }
  rewrite Hrun. unfold RolesGuard.canActivate. split_and!; [done| |].
  - by intros ->.
  - intros required -> Hne ->. by destruct required.
Qed.

End GuardSequenceFacts.

(** An authenticated admin of tenant [t1], with [t1] in the store. *)
Lemma guards_postcondition_witness :
  let u := User.mk "u1" "t1" (Some ["admin"]) in
  let strategy := fun _ : Request.t => JwtAuthGuard.mkPassport None (Some u) in
  let req := Request.mk {["authorization" := "Bearer abc"]} "/api/v1/users" "GET"
               "/api/v1/users" "10.0.0.1" (JStr "r1") (JStr "t1") None in
  let context := mkContext (Decorators.Roles ["admin"] undecorated) undecorated req in
  let cls : store := {[TENANT_ID_KEY := JStr "t1"]} in
  ∃ u', Request.user (Request.set_tenantId (Request.set_user req u) (JStr "t1")) = Some u' ∧
        Request.tenantId (Request.set_tenantId (Request.set_user req u) (JStr "t1"))
        = JStr (User.tenantId u').
Proof.
  intros u strategy req context cls.
  destruct (guards_postcondition strategy cls context
              (Request.set_tenantId (Request.set_user req u) (JStr "t1")))
    as (u' & _ & _ & H1 & H2 & _); [reflexivity | reflexivity |].
  exists u'. split; [exact H1 | exact H2].
Defined.

(** A public booking page, first plain, then with [@Roles('admin')]. *)
Lemma public_route_runs_role_guard_only_witness :
  let strategy := fun _ : Request.t =>
    JwtAuthGuard.mkPassport (Some (UnauthorizedException "jwt expired")) None in
  let req := Request.mk {["authorization" := "Bearer expired"]} "/public/book/acme" "GET"
               "/public/book/acme" "10.0.0.1" (JStr "r1") JUndefined None in
  let plain := mkContext (Decorators.Public undecorated) undecorated req in
  let restricted :=
    mkContext (Decorators.Roles ["admin"] (Decorators.Public undecorated)) undecorated req in
  Pipeline.runGuards strategy ∅ plain = Returned req ∧
  Pipeline.runGuards strategy ∅ restricted
  = Thrown (ForbiddenException "User not authenticated").
Proof.
  intros strategy req plain restricted. split.
  - apply (proj1 (proj2 (public_route_runs_role_guard_only strategy ∅ plain eq_refl))).
    reflexivity.
  - apply (proj2 (proj2 (public_route_runs_role_guard_only strategy ∅ restricted eq_refl))
             ["admin"]); [reflexivity | discriminate | reflexivity].
Defined.

(** ** From the middleware through the guards to the gateway *)

Section EndToEnd.

Variable decode : string → outcome jsval.
Variable uuid : string.
Variable strategy : Request.t → JwtAuthGuard.PassportResult.

(** X16: a request that arrives with no tenant id attached, goes through
    [TenantMiddleware.use] on a fresh store and is let through by the guard
    sequence on a route not marked public. Then a tenant was resolved, it is
    the authenticated principal's own tenant id, it is what the store
    holds, and no read, count, aggregate, update or delete the handler
    issues on a tenant-scoped model reaches [next] unscoped: called with an
    argument object it reaches [next] filtered on that tenant id, called
    without an argument it is refused with a [TypeError]. *)
Theorem guarded_request_queries_own_tenant
    (req0 : Request.t) (handler class : Metadata) (r : Request.t) :
  let cls := (TenantMiddleware.use decode uuid ∅ req0).1 in
  let request := (TenantMiddleware.use decode uuid ∅ req0).2 in
  truthy (Request.tenantId req0) = false →
  markedPublic (mkContext handler class request) = false →
  Pipeline.runGuards strategy cls (mkContext handler class request) = Returned r →
  ∃ u, Request.user r = Some u ∧
    TenantMiddleware.resolveTenantId decode req0 = JStr (User.tenantId u) ∧
    cls_get cls TENANT_ID_KEY = JStr (User.tenantId u) ∧
    ∀ p, PrismaService.includes PrismaService.tenantScopedModels (PrismaService.model p) = true →
      PrismaService.action p ∈ ["findUnique"; "findFirst"; "findMany"; "count"; "aggregate";
                                "update"; "updateMany"; "delete"; "deleteMany"] →
      (∀ a, PrismaService.args p = Some a →
         ∃ p' a' w', PrismaService.tenantIsolation cls p = PrismaService.Next p' ∧
           PrismaService.args p' = Some a' ∧
           PrismaService.args_where a' = Some w' ∧
           w' !! "tenantId" = Some (JStr (User.tenantId u))) ∧
      (PrismaService.args p = None →
         ∃ msg, PrismaService.tenantIsolation cls p = PrismaService.Throw (TypeError msg)).
Proof.
  intros cls request Hfresh Hpub Hpass.
  destruct (runGuards_pass strategy cls _ r Hpub Hpass)
    as (u & _ & _ & Huser & _ & Hne & Htenant & _).
  cbn [getRequest] in Htenant.
  assert (Hres : truthy (TenantMiddleware.resolveTenantId decode req0) = true).
  { destruct (truthy (TenantMiddleware.resolveTenantId decode req0)) eqn:Hres; [done|].
    exfalso. subst cls request. unfold TenantMiddleware.use in Htenant.
    rewrite resolveTenantId_requestId, Hres in Htenant. cbn [fst snd] in Htenant.
    unfold js_or, cls_get, cls_set, getProp in Htenant.
    rewrite lookup_insert_ne, lookup_empty in Htenant by done.
    cbn [default from_option id truthy Request.tenantId Request.set_requestId] in Htenant.
    rewrite Htenant in Hfresh. by rewrite (truthy_JStr _ Hne) in Hfresh. }
  destruct (use_writes_resolved decode uuid ∅ req0 Hres) as [Hcls _].
  fold cls in Hcls.
  assert (Hstore : cls_get cls TENANT_ID_KEY = JStr (User.tenantId u)).
  { unfold js_or in Htenant. rewrite Hcls, Hres in Htenant. by rewrite Hcls. }
  exists u. split_and!; [done | by rewrite <- Hcls | done |].
  intros p Hm Ha.
  rewrite (tenantIsolation_where_actions cls p) by (rewrite ?Hstore; auto using truthy_JStr).
  split.
  - intros a Hargs. rewrite (scope_where_defined _ p a Hargs).
    eexists _, _, _. split; [reflexivity|]. cbn. split_and!; [reflexivity | reflexivity |].
    by rewrite lookup_insert_eq, Hstore.
  - apply scope_where_undefined.
Qed.

End EndToEnd.

(** A principal of [t1] whose token claims [t1], listing the active
    users. *)
Lemma guarded_request_queries_own_tenant_witness :
  let u := User.mk "u1" "t1" (Some ["user"]) in
  let decode := fun _ : string => Returned (JObject {["tenantId" := JStr "t1"]}) in
  let strategy := fun _ : Request.t => JwtAuthGuard.mkPassport None (Some u) in
  let req0 := Request.mk {["authorization" := "Bearer abc"]} "/api/v1/users" "GET"
                "/api/v1/users" "10.0.0.1" JUndefined JUndefined None in
  let cls := (TenantMiddleware.use decode "r1" ∅ req0).1 in
  let a := PrismaService.mkArgs (Some {["isActive" := JBool true]}) None None in
  ∃ u', cls_get cls TENANT_ID_KEY = JStr (User.tenantId u') ∧
    ∃ p' a' w',
      PrismaService.tenantIsolation cls (PrismaService.mkParams (Some "User") "findMany" (Some a))
      = PrismaService.Next p' ∧
      PrismaService.args p' = Some a' ∧
      PrismaService.args_where a' = Some w' ∧
      w' !! "tenantId" = Some (JStr (User.tenantId u')).
Proof.
  intros u decode strategy req0 cls a.
  destruct (guarded_request_queries_own_tenant decode "r1" strategy req0
              undecorated undecorated
              (Request.set_tenantId
                 (Request.set_user (TenantMiddleware.use decode "r1" ∅ req0).2 u) (JStr "t1")))
    as (u' & _ & _ & Hcls & Hq); [reflexivity | reflexivity | reflexivity |].
  exists u'. split; [exact Hcls|].
  apply (proj1 (Hq (PrismaService.mkParams (Some "User") "findMany" (Some a)) eq_refl
                  ltac:(apply (bool_decide_unpack _); vm_compute; exact I)) a eq_refl).
Defined.

Section GuardAndGateway.

(** X17: the tenant guard and the gateway do not read the tenant from the
    same place. The guard falls back on the tenant id attached to the
    request when the store has none, and it attaches the id to the request
    only, never to the store; the gateway reads the store only. So a request
    that passes the tenant guard on [request.tenantId] alone has all its
    queries run without a tenant filter. *)
Theorem guard_passes_on_request_tenant_gateway_unscoped
    (cls : store) (context : ExecutionContext) (u : User.t) :
  markedPublic context = false →
  truthy (cls_get cls TENANT_ID_KEY) = false →
  Request.user (getRequest context) = Some u →
  Request.tenantId (getRequest context) = JStr (User.tenantId u) →
  User.tenantId u ≠ "" →
  TenantGuard.canActivate cls context = Returned (getRequest context) ∧
  ∀ p, PrismaService.tenantIsolation cls p = PrismaService.Next p.
Proof.
  intros Hpub Hcls Huser Htid Hne. split.
  - unfold TenantGuard.canActivate, markedPublic in *. rewrite Hpub.
    unfold js_or. rewrite Hcls, Huser, Htid, (truthy_JStr _ Hne). cbn [negb strict_eq_str].
    rewrite bool_decide_eq_true_2 by done. cbn [negb]. f_equal.
    destruct (getRequest context); cbn in *. by rewrite Htid.
  - intros p. unfold PrismaService.tenantIsolation. rewrite Hcls.
    by destruct (PrismaService.includes PrismaService.nonTenantModels _).
Qed.

End GuardAndGateway.

Lemma guard_passes_on_request_tenant_gateway_unscoped_witness :
  let u := User.mk "u1" "t1" (Some ["user"]) in
  let req := Request.mk ∅ "/api/v1/users" "GET" "/api/v1/users" "10.0.0.1"
               (JStr "r1") (JStr "t1") (Some u) in
  let p := PrismaService.mkParams (Some "User") "findMany" None in
  TenantGuard.canActivate ∅ (mkContext undecorated undecorated req) = Returned req ∧
  PrismaService.tenantIsolation ∅ p = PrismaService.Next p.
Proof.
  intros u req p.
  destruct (guard_passes_on_request_tenant_gateway_unscoped ∅
              (mkContext undecorated undecorated req) u) as [Hguard Hgateway];
    [reflexivity | reflexivity | reflexivity | reflexivity | discriminate |].
  split; [exact Hguard | exact (Hgateway p)].
Defined.

(** ** The API-key guard *)

Section ApiKeyGuardFacts.

Import ApiKeyGuard.

Lemma fold_lor_zero (f : nat → Z) (l : list nat) (r : Z) :
  fold_left (fun result i => Z.lor result (f i)) l r = 0%Z ↔
  r = 0%Z ∧ ∀ i, i ∈ l → f i = 0%Z.
Proof.
  revert r. induction l as [|i l IH]; intros r; simpl.
  - split; [|by intros [-> _]]. intros ->. split; [done|]. by intros i ?%elem_of_nil.
  - rewrite IH, Z.lor_eq_0_iff. split.
    + intros [[-> Hi] Hl]. split; [done|]. intros j [->|Hj]%elem_of_cons; auto.
    + intros [-> H]. split_and!; [done| |].
      * apply H. by left.
      * intros j Hj. apply H. by right.
Qed.

Lemma charCodeAt_eq (a b : string) (i : nat) :
  (i < String.length a)%nat → (i < String.length b)%nat →
  Z.lxor (toInt32 (charCodeAt a i)) (toInt32 (charCodeAt b i)) = 0%Z →
  String.get i a = String.get i b.
Proof.
  revert b i. induction a as [|c a IH]; intros [|d b] i; simpl; try lia.
  destruct i as [|i].
  - intros _ _ Hx. unfold charCodeAt, toInt32 in Hx. simpl in Hx.
    rewrite Z.lxor_eq_0_iff in Hx. apply Nat2Z.inj in Hx.
    f_equal. by rewrite <- (ascii_nat_embedding c), Hx, ascii_nat_embedding.
  - intros Ha Hb Hx. simpl. apply IH; [lia | lia | exact Hx].
Qed.

Lemma string_get_ext (a b : string) :
  String.length a = String.length b →
  (∀ i, (i < String.length a)%nat → String.get i a = String.get i b) →
  a = b.
Proof.
  revert b. induction a as [|c a IH]; intros [|d b]; simpl; try done.
  intros [= Hlen] Hget. specialize (Hget 0%nat ltac:(lia)) as H0. simpl in H0.
  injection H0 as ->. f_equal. apply IH; [done|].
  intros i Hi. apply (Hget (S i)). lia.
Qed.

Lemma secureCompare_eq_aux (a b : string) : secureCompare a b = true ↔ a = b.
Proof.
  unfold secureCompare. split.
  - destruct (String.length a =? String.length b)%nat eqn:Hlen; cbn [negb]; [|done].
    apply Nat.eqb_eq in Hlen. intros Hzero%Z.eqb_eq.
    apply fold_lor_zero in Hzero as [_ Hall].
    apply string_get_ext; [done|]. intros i Hi.
    apply charCodeAt_eq; [done | lia |]. apply Hall, elem_of_seq. lia.
  - intros <-. rewrite Nat.eqb_refl. cbn [negb]. apply Z.eqb_eq, fold_lor_zero.
    split; [done|]. intros i _. apply Z.lxor_nilpotent.
Qed.

(** X18: the constant-time comparison is exact: [secureCompare a b] is
    [true] if and only if the two strings are equal, whatever their lengths
    and characters. *)
Theorem secureCompare_iff_equal (a b : string) : secureCompare a b = true ↔ a = b.
Proof. apply secureCompare_eq_aux. Qed.

Variable configured : option string.

(** X19: on a route that requires an API key, the guard lets a request
    through exactly when its [x-api-key] header is a non-empty string equal
    to the configured internal key. A missing or empty header is refused as
    [API key is required], any other key as [Invalid API key]; and when no
    internal key is configured, no request at all is let through. *)
Theorem api_key_guard_verdict (onHandler onClass : option bool) (request : Request.t) :
  head (omap id [onHandler; onClass]) = Some true →
  (canActivate configured onHandler onClass request = Returned request ↔
   ∃ key, Request.headers request !! "x-api-key" = Some key ∧ key ≠ "" ∧
          configured = Some key) ∧
  (Request.headers request !! "x-api-key" = None ∨
   Request.headers request !! "x-api-key" = Some "" →
   canActivate configured onHandler onClass request
   = Thrown (UnauthorizedException "API key is required")) ∧
  (∀ key, Request.headers request !! "x-api-key" = Some key → key ≠ "" →
     configured ≠ Some key →
     canActivate configured onHandler onClass request
     = Thrown (UnauthorizedException "Invalid API key")) ∧
  (configured = None → ∃ e, canActivate configured onHandler onClass request = Thrown e).
Proof.
  intros Hreq. unfold canActivate. rewrite Hreq. cbn [default from_option id negb].
  change (Str.toLowerCase API_KEY_HEADER) with "x-api-key".
  assert (Hcmp : ∀ key, key ≠ "" →
            secureCompare key (internalApiKey configured) = true ↔ configured = Some key).
  { intros key Hkey. rewrite secureCompare_eq_aux. unfold internalApiKey.
    destruct configured as [k|]; cbn [default from_option id]; split; congruence. }
  destruct (Request.headers request !! "x-api-key") as [key|]; cbn [from_option].
  - destruct (decide (key = "")) as [->|Hkey].
    + split_and!; try done.
      * split; [done|]. by intros (k & [= <-] & Hk & _).
      * intros k [= <-] Hk. done.
      * eauto.
    + rewrite (truthy_JStr _ Hkey). cbn [negb].
      destruct (secureCompare key (internalApiKey configured)) eqn:Hsc; cbn [negb].
      * apply Hcmp in Hsc; [|done]. split_and!.
        -- split; [|done]. intros _. by exists key.
        -- intros [[=]|[= ->]]. done.
        -- intros k [= <-] _ Hne. done.
        -- intros Hnone. by rewrite Hnone in Hsc.
      * split_and!.
        -- split; [done|]. intros (k & [= <-] & _ & Hcfg). apply Hcmp in Hcfg; [|done]. congruence.
        -- intros [[=]|[= ->]]. done.
        -- done.
        -- eauto.
  - split_and!; try done; [|eauto].
    split; [done|]. by intros (k & [=] & _).
Qed.

End ApiKeyGuardFacts.

(** A webhook route with [@ApiKeyRequired()]: the right key, and the same
    route when [INTERNAL_API_KEY] is not set. *)
Lemma api_key_guard_verdict_witness :
  let req := Request.mk {["x-api-key" := "s3cr3t"]} "/api/v1/webhook" "POST"
               "/api/v1/webhook" "10.0.0.1" JUndefined JUndefined None in
  ApiKeyGuard.canActivate (Some "s3cr3t") (Some true) None req = Returned req ∧
  ∃ e, ApiKeyGuard.canActivate None (Some true) None req = Thrown e.
Proof.
  intros req. split.
  - apply (proj1 (api_key_guard_verdict (Some "s3cr3t") (Some true) None req eq_refl)).
    exists "s3cr3t". split_and!; [reflexivity | discriminate | reflexivity].
  - apply (proj2 (proj2 (proj2 (api_key_guard_verdict None (Some true) None req eq_refl)))).
    reflexivity.
Defined.

(** ** Sanitising logged request bodies *)

Section SanitizeFacts.

Import LoggingInterceptor.

Lemma redact_lookup (o : obj) (field k : string) :
  redact o field !! k =
    if bool_decide (k = field) && truthy (getProp o k)
    then Some (JStr "[REDACTED]") else o !! k.
Proof.
  unfold redact. case_bool_decide as Hk; cbn [andb].
  - subst k. destruct (truthy (getProp o field)); [by rewrite lookup_insert_eq | done].
  - destruct (truthy (getProp o field)); [by rewrite lookup_insert_ne | done].
Qed.

(** The loop over the sensitive fields, by what it leaves under each key. *)
Lemma fold_redact_lookup (fields : list string) (o : obj) (k : string) :
  fold_left redact fields o !! k =
    if bool_decide (k ∈ fields) && truthy (getProp o k)
    then Some (JStr "[REDACTED]") else o !! k.
Proof.
  revert o. induction fields as [|field fields IH]; intros o; cbn [fold_left].
  - rewrite bool_decide_eq_false_2; [done|]. by intros ?%elem_of_nil.
  - rewrite IH. unfold getProp at 1. rewrite !redact_lookup.
    destruct (decide (k = field)) as [->|Hne].
    + rewrite (bool_decide_eq_true_2 (field = field)) by done.
      rewrite (bool_decide_eq_true_2 (field ∈ field :: fields)) by (by left).
      cbn [andb]. destruct (truthy (getProp o field)) eqn:Ht.
      * cbn [default from_option id truthy]. by destruct (bool_decide _).
      * fold (getProp o field). rewrite Ht. by rewrite andb_false_r.
    + rewrite (bool_decide_eq_false_2 (k = field)) by done. cbn [andb].
      fold (getProp o k).
      assert (Hin : bool_decide (k ∈ field :: fields) = bool_decide (k ∈ fields)).
      { apply bool_decide_ext. rewrite elem_of_cons. tauto. }
      by rewrite Hin.
Qed.

Lemma sanitizeBody_truthy (body : jsval) :
  truthy body = true →
  sanitizeBody body = JObject (fold_left redact sensitiveFields (spread body)).
Proof. unfold sanitizeBody. by intros ->. Qed.

(** X20: what [sanitizeBody] does to an object: a top-level property named
    in [sensitiveFields] whose value is truthy is replaced by
    ['[REDACTED]']; every other property is kept as it is, which includes
    sensitive fields with a falsy value (an empty password, [0], [null]) and
    everything nested under another key; no key is added or removed. A
    falsy body is returned as it is. *)
Theorem sanitizeBody_redacts_top_level (body : jsval) :
  (truthy body = false → sanitizeBody body = body) ∧
  (∀ o, body = JObject o →
     ∃ o', sanitizeBody body = JObject o' ∧
       (∀ k, k ∈ sensitiveFields → truthy (getProp o k) = true →
          o' !! k = Some (JStr "[REDACTED]")) ∧
       (∀ k, k ∉ sensitiveFields ∨ truthy (getProp o k) = false → o' !! k = o !! k) ∧
       dom o' = dom o).
Proof.
  split.
  - unfold sanitizeBody. by intros ->.
  - intros o ->. rewrite sanitizeBody_truthy by done. cbn [spread].
    eexists. split; [reflexivity|]. split_and!.
    + intros k Hk Ht. rewrite fold_redact_lookup, Ht. by rewrite bool_decide_eq_true_2.
    + intros k [Hk|Ht]; rewrite fold_redact_lookup.
      * by rewrite bool_decide_eq_false_2.
      * by rewrite Ht, andb_false_r.
    + apply set_eq. intros k. rewrite !elem_of_dom, fold_redact_lookup.
      destruct (bool_decide _ && truthy (getProp o k)) eqn:Hc; [|done].
      apply andb_true_iff in Hc as [_ Ht]. unfold getProp in Ht.
      destruct (o !! k); [|done]. split; eauto.
Qed.

(** X21: sanitising is idempotent: a body that has been sanitised comes
    out of a second pass unchanged. *)
Theorem sanitizeBody_idempotent (body : jsval) :
  sanitizeBody (sanitizeBody body) = sanitizeBody body.
Proof.
  destruct (truthy body) eqn:Ht.
  - rewrite (sanitizeBody_truthy body Ht). rewrite sanitizeBody_truthy by done.
    cbn [spread]. f_equal. apply map_eq. intros k.
    rewrite fold_redact_lookup.
    destruct (bool_decide (k ∈ sensitiveFields)) eqn:Hk; cbn [andb]; [|done].
    unfold getProp at 1. rewrite !fold_redact_lookup, Hk. cbn [andb].
    destruct (truthy (getProp (spread body) k)) eqn:Hv; [done|].
    fold (getProp (spread body) k). by rewrite Hv.
  - unfold sanitizeBody. rewrite Ht. cbn [negb]. by rewrite Ht.
Qed.

End SanitizeFacts.

(** A login body: the password is redacted, the empty token and the nested
    secret are not. *)
Lemma sanitizeBody_redacts_top_level_witness :
  let o : obj := {[ "email" := JStr "a@b.c"; "password" := JStr "hunter2";
                    "token" := JStr "";
                    "profile" := JObject {["secret" := JStr "nested"]} ]} in
  ∃ o', LoggingInterceptor.sanitizeBody (JObject o) = JObject o' ∧
    o' !! "password" = Some (JStr "[REDACTED]") ∧
    o' !! "token" = Some (JStr "") ∧
    o' !! "profile" = Some (JObject {["secret" := JStr "nested"]}).
Proof.
  intros o.
  destruct (proj2 (sanitizeBody_redacts_top_level (JObject o)) o eq_refl)
    as (o' & Heq & Hred & Hkeep & _).
  exists o'. split_and!; [exact Heq | | |].
  - apply Hred; [|reflexivity]. apply (bool_decide_unpack _). vm_compute. exact I.
  - rewrite Hkeep; [reflexivity|]. right. reflexivity.
  - rewrite Hkeep; [reflexivity|]. left. apply (bool_decide_unpack _). vm_compute. exact I.
Defined.

(** ** Exception filters *)

Section FilterFacts.

Import Filters.

Variable isoNow : string.

(** X22: in production the catch-all filter discloses nothing about the
    exception: for every exception, HTTP or not, the reply's error message
    is ['Internal server error'] and carries no stack; the status is the
    exception's own for an [HttpException] and 500 otherwise, the body
    repeats it, and [success] is [false]. *)
Theorem all_exceptions_filter_production_hides_details
    (exception : Exception) (request : Request.t) :
  let reply := AllExceptionsFilter.catch (Some "production") isoNow exception request in
  ∃ error,
    replyBody reply !! "error" = Some (JObject error) ∧
    error !! "message" = Some (JStr "Internal server error") ∧
    error !! "stack" = None ∧
    error !! "statusCode" = Some (JNum (replyStatus reply)) ∧
    replyBody reply !! "success" = Some (JBool false) ∧
    replyStatus reply =
      match exception with
      | HttpException status _ _ => status
      | _ => INTERNAL_SERVER_ERROR
      end.
Proof.
  destruct exception as [status response stack|message stack|v];
    (eexists; split_and!; [reflexivity | | | | reflexivity | reflexivity]);
    unfold errorBody; by simplify_map_eq.
Qed.

(** X23: outside production the catch-all filter answers an
    [HttpException] exactly as the HTTP filter does whenever the
    exception's response is a string or an object with a truthy [message].
    (With a missing or falsy [message] they differ: ['Internal server
    error'] against the response's own value or ['An error occurred'].) *)
Theorem filters_agree_on_http_exceptions
    (NODE_ENV : option string) (status : Z) (response : Response) (stack : jsval)
    (request : Request.t) :
  NODE_ENV ≠ Some "production" →
  match response with
  | RString _ => True
  | RObject o => truthy (getProp o "message") = true
  end →
  AllExceptionsFilter.catch NODE_ENV isoNow (HttpException status response stack) request
  = HttpExceptionFilter.catch NODE_ENV isoNow status response stack request.
Proof.
  intros Henv Hmsg. unfold AllExceptionsFilter.catch, HttpExceptionFilter.catch.
  unfold production. rewrite bool_decide_eq_false_2 by done.
  destruct response as [s|o]; cbn [HttpExceptionFilter.extractMessage]; [done|].
  unfold js_or. rewrite Hmsg.
  unfold getProp in *. by destruct (o !! "message").
Qed.

End FilterFacts.

(** A [ForbiddenException('Tenant mismatch - access denied')] as Nest
    builds it, in development. *)
Lemma filters_agree_on_http_exceptions_witness :
  let response := Filters.RObject {[ "statusCode" := JNum 403;
                                     "message" := JStr HTTP_MESSAGES.TENANT_MISMATCH;
                                     "error" := JStr "Forbidden" ]} in
  let req := Request.mk ∅ "/api/v1/users" "GET" "/api/v1/users" "10.0.0.1"
               JUndefined JUndefined None in
  AllExceptionsFilter.catch (Some "development") "2025-01-01T00:00:00.000Z"
    (Filters.HttpException 403 response JUndefined) req
  = HttpExceptionFilter.catch (Some "development") "2025-01-01T00:00:00.000Z"
      403 response JUndefined req.
Proof.
  intros response req.
  apply (filters_agree_on_http_exceptions "2025-01-01T00:00:00.000Z" (Some "development")
           403 response JUndefined req); [discriminate | reflexivity].
Defined.

(** ** The frontend against the backend *)

Section FrontendFacts.

(** X24: the UI's [isAdmin] helper agrees with the backend's role guard
    for [@Roles('admin')]: it is [true] exactly for the principals whose
    roles [matchRoles] accepts against [['admin']] (an [admin] or a
    [super_admin]); and a role the UI's [hasRole] reports is one the role
    guard accepts when that role is required. *)
Theorem ui_admin_agrees_with_roles_guard (u : User.t) (role : string) :
  AuthStore.isAdmin (Some u) = RolesGuard.matchRoles [UserRole.ADMIN] (User.roles u) ∧
  AuthStore.isAdmin None = false ∧
  (AuthStore.hasRole (Some u) role = true →
   RolesGuard.matchRoles [role] (User.roles u) = true).
Proof.
  unfold AuthStore.isAdmin, AuthStore.hasRole, AuthStore.includesRole, AuthStore.orElse,
    RolesGuard.matchRoles.
  destruct (User.roles u) as [[|r rs]|]; split_and!; try done.
  - change UserRole.SUPER_ADMIN with "super_admin". change UserRole.ADMIN with "admin".
    cbn [existsb]. rewrite orb_false_r.
    by destruct (bool_decide ("admin" ∈ r :: rs)), (bool_decide ("super_admin" ∈ r :: rs)).
  - cbn [existsb]. rewrite orb_false_r.
    destruct (bool_decide (role ∈ r :: rs)); [|done]. intros _.
    by destruct (bool_decide _).
Qed.

(** X25: the access token the client stores comes back out of the
    backend's header parser: after [setAccessToken token] the request
    interceptor sends [Authorization: Bearer <token>], and a request
    carrying that header value yields exactly [token] from
    [extractTokenFromHeader], provided the token is non-empty and has no
    space; after [clearTokens] the interceptor adds nothing. *)
Theorem stored_token_reaches_backend
    (localStorage : ApiClient.storage) (headers : gmap string string)
    (token : string) (req : Request.t) :
  token ≠ "" → Str.has_char " " token = false →
  let sent := ApiClient.addAuthToken (ApiClient.setAccessToken localStorage token) headers in
  sent !! "Authorization" = Some ("Bearer " ++ token) ∧
  (Request.headers req !! "authorization" = sent !! "Authorization" →
   TenantMiddleware.extractTokenFromHeader req = JStr token) ∧
  ApiClient.addAuthToken (ApiClient.clearTokens (ApiClient.setAccessToken localStorage token))
    headers = headers.
Proof.
  intros Htok Hsp sent.
  assert (Hsent : sent !! "Authorization" = Some ("Bearer " ++ token)).
  { subst sent. unfold ApiClient.addAuthToken, ApiClient.getAccessToken,
      ApiClient.setAccessToken.
    rewrite lookup_insert_eq, (truthy_JStr _ Htok). by rewrite lookup_insert_eq. }
  split_and!; [exact Hsent | |].
  - rewrite Hsent. intros Hreq. by apply extractTokenFromHeader_bearer.
  - unfold ApiClient.addAuthToken, ApiClient.getAccessToken, ApiClient.clearTokens,
      ApiClient.setAccessToken.
    rewrite lookup_delete_ne by done. by rewrite lookup_delete_eq.
Qed.

End FrontendFacts.

Lemma stored_token_reaches_backend_witness :
  let req := Request.mk {["authorization" := "Bearer abc.def.ghi"]} "/api/v1/auth/profile"
               "GET" "/api/v1/auth/profile" "10.0.0.1" JUndefined JUndefined None in
  ApiClient.addAuthToken (ApiClient.setAccessToken ∅ "abc.def.ghi") ∅ !! "Authorization"
  = Some "Bearer abc.def.ghi" ∧
  TenantMiddleware.extractTokenFromHeader req = JStr "abc.def.ghi".
Proof.
  intros req.
  destruct (stored_token_reaches_backend ∅ ∅ "abc.def.ghi" req) as (Hsent & Hback & _);
    [discriminate | reflexivity |].
  split; [exact Hsent|]. apply Hback. reflexivity.
Defined.

Lemma ui_admin_agrees_with_roles_guard_witness :
  let u := User.mk "u1" "t1" (Some ["user"; "admin"]) in
  RolesGuard.matchRoles ["user"] (User.roles u) = true.
Proof.
  intros u. apply (proj2 (proj2 (ui_admin_agrees_with_roles_guard u "user"))). reflexivity.
Defined.

(** ** The order of refusals *)

Section RefusalOrder.

Variable strategy : Request.t → JwtAuthGuard.PassportResult.

(** X26: on a route not marked public the guards refuse in a fixed order.
    A request the strategy does not authenticate is refused first, with
    the strategy's own error if it reported one (even when it also reported
    a principal) and with [Unauthorized: Invalid or expired token]
    otherwise, whatever the tenant context and the roles; for an
    authenticated request a refusal of the tenant guard comes before any
    role check. *)
Theorem guards_refuse_in_order (cls : store) (context : ExecutionContext) :
  markedPublic context = false →
  (∀ e, JwtAuthGuard.err (strategy (getRequest context)) = Some e →
     Pipeline.runGuards strategy cls context = Thrown e) ∧
  (JwtAuthGuard.err (strategy (getRequest context)) = None →
   JwtAuthGuard.user (strategy (getRequest context)) = None →
   Pipeline.runGuards strategy cls context
   = Thrown (UnauthorizedException "Invalid or expired token")) ∧
  (∀ u e, strategy (getRequest context) = JwtAuthGuard.mkPassport None (Some u) →
     TenantGuard.canActivate cls
       (with_request context (Request.set_user (getRequest context) u)) = Thrown e →
     Pipeline.runGuards strategy cls context = Thrown e).
Proof.
  intros Hpub. split_and!.
  - intros e He. unfold Pipeline.runGuards, JwtAuthGuard.canActivate.
    unfold markedPublic in Hpub. by rewrite Hpub, He.
  - intros He Hu. unfold Pipeline.runGuards, JwtAuthGuard.canActivate.
    unfold markedPublic in Hpub. by rewrite Hpub, He, Hu.
  - intros u e Hauth Htg. by apply (runGuards_tenant_guard_throws strategy cls context u).
Qed.

End RefusalOrder.

(** An expired token on a route that also lacks a tenant and requires
    [admin]: the refusal is the strategy's. *)
Lemma guards_refuse_in_order_witness :
  let expired := UnauthorizedException "jwt expired" in
  let strategy := fun _ : Request.t =>
    JwtAuthGuard.mkPassport (Some expired) (Some (User.mk "u1" "t1" None)) in
  let req := Request.mk {["authorization" := "Bearer old"]} "/api/v1/users" "GET"
               "/api/v1/users" "10.0.0.1" JUndefined JUndefined None in
  let context := mkContext (Decorators.Roles ["admin"] undecorated) undecorated req in
  Pipeline.runGuards strategy ∅ context = Thrown expired.
Proof.
  intros expired strategy req context.
  apply (proj1 (guards_refuse_in_order strategy ∅ context eq_refl) expired). reflexivity.
Defined.
